(** * linksh: the account repository and the session manager

    A shallow embedding of [pkg/repositories/user_repository.go] (the
    authorization-gated account repository), of the sentinel errors of
    [pkg/interfaces/user_repository] and of the session manager of
    [pkg/sessions], followed by the properties the specification states
    about them. *)

From ITree Require Import ITree ITreeFacts Events.State Events.StateFacts.
From Stdlib Require Import String List Bool Arith ZArith Lia.
Import ListNotations.
Local Open Scope string_scope.
Local Open Scope list_scope.

Set Implicit Arguments.

(** ** Go values *)

(** [[]byte]: a byte slice; [len] is the list length. *)
Definition bytes : Type := list Byte.byte.

(** A Go pointer that may be [nil]. *)
Inductive ptr (A : Type) : Type :=
| nil_ptr : ptr A
| ref (a : A) : ptr A.
Arguments nil_ptr {A}.

(** A Go call either returns or panics. *)
Inductive outcome (A : Type) : Type :=
| Returned (a : A)
| Panicked (msg : string).
Arguments Panicked {A} msg.

(** ** Errors *)

(** Errors made by the storage package: [sto.NotFoundError] and any other
    storage failure. *)
Inductive sto_error : Type :=
| NotFoundError
| StorageFault (text : string).

(** The Go [error] values that flow through the repository and the session
    manager; a [nil] error is [None] of [option error]. *)
Inductive error : Type :=
| errors_New (text : string)
| ErrForbidden
| FromStorage (e : sto_error)
| FromBcrypt (text : string)
| FromNanoid (text : string)
| errors_Errorf (format : string) (wrapped : error).

(** Modelled from the spec: the [Forbidden] authorization denial is the
    constructor [ErrForbidden] above; its declaration is not among the
    sources. *)
Definition Forbidden : error := ErrForbidden.

Module user_repository.

(** [ErrInvalidName = errors.New("Invalid username")] *)
Definition ErrInvalidName : error := errors_New "Invalid username".

(** [ErrInvalidPassword = errors.New("Invalid password")] *)
Definition ErrInvalidPassword : error := errors_New "Invalid password".

(** Modelled from the spec: the declaration of [UpdatePayload] is not
    among the sources. A patch names its target [ID] and carries
    optionally-present fields; [Update] reads [Name] through a pointer
    and [Password] as a slice that may be nil, and the spec names the
    [isAdmin] field. *)
Record UpdatePayload : Type := mkUpdatePayload {
  ID : string;
  Name : option string;
  Password : option bytes;
  IsAdmin : option bool
}.

End user_repository.

Module models.

(** [models.User], with the four fields [Create] fills. *)
Record User : Type := mkUser {
  ID : string;
  Name : string;
  Password : bytes;
  IsAdmin : bool
}.

(** The zero value [models.User{}]. *)
Definition zero : User := mkUser "" "" [] false.

End models.

(** ** The storage capability

    [sto.IStorage] is an interface; an implementation over a state [S] is
    a record of its methods. Reads do not change the state. *)
Record IStorage (S : Type) : Type := mkStorage {
  sto_GetUserByName : S -> string -> models.User * option sto_error;
  sto_GetUser : S -> string -> models.User * option sto_error;
  sto_ListUsers : S -> nat -> nat -> list models.User * option sto_error;
  sto_SaveUser : S -> models.User -> S * option sto_error;
  sto_UpdateUser : S -> user_repository.UpdatePayload -> S * option sto_error;
  sto_DeleteUser : S -> string -> S * option sto_error
}.

(** The imported libraries: bcrypt, go-nanoid (both draw on an entropy
    source [R]) and [errors.As] of xerrors, whose target here is a
    pointer to a [sto.NotFoundError]. *)
Record Imports (R : Type) : Type := mkImports {
  bcrypt_CompareHashAndPassword : bytes -> bytes -> option string;
  bcrypt_GenerateFromPassword : R -> bytes -> (bytes * option string) * R;
  gonanoid_Nanoid : R -> (string * option string) * R;
  errors_As : error -> ptr sto_error -> outcome bool
}.

(** Every call the repository makes on its storage. *)
Inductive call : Type :=
| CallGetUserByName (name : string)
| CallGetUser (id : string)
| CallListUsers (limit offset : nat)
| CallSaveUser (u : models.User)
| CallUpdateUser (p : user_repository.UpdatePayload)
| CallDeleteUser (id : string).

(** What a repository method runs against: the storage state, the entropy
    source, and the log of storage calls made so far (latest first). *)
Record world (S R : Type) : Type := mkWorld {
  storage : S;
  entropy : R;
  calls : list call
}.

(** ** The monad of Go calls: state passing, plus panics *)

Definition Go (W A : Type) : Type := W -> outcome (A * W).

Definition go_ret {W A} (a : A) : Go W A := fun w => Returned (a, w).

Definition go_bind {W A B} (m : Go W A) (k : A -> Go W B) : Go W B :=
  fun w =>
    match m w with
    | Returned (a, w') => k a w'
    | Panicked msg => Panicked msg
    end.

Definition go_lift {W A} (o : outcome A) : Go W A :=
  fun w =>
    match o with
    | Returned a => Returned (a, w)
    | Panicked msg => Panicked msg
    end.

Declare Scope go_scope.
Delimit Scope go_scope with go.
Notation "'let*' p ':=' m 'in' k" :=
  (go_bind m (fun p => k))
  (at level 10, p pattern, m at level 100, k at level 200) : go_scope.

Definition as_error (e : option sto_error) : option error :=
  option_map FromStorage e.

(** ** The account repository *)

Section UserRepository.

Context {S R : Type}.

(** [UserRepository{Storage}] together with the packages it imports. *)
Variable Storage : IStorage S.
Variable lib : Imports R.

Local Abbreviation W := (world S R).
Local Open Scope go_scope.

Definition logged (c : call) (w : W) : W :=
  mkWorld (storage w) (entropy w) (c :: calls w).

(** *** Calls through the [Storage] interface *)

Definition Storage_GetUserByName (name : string)
  : Go W (models.User * option error) :=
  fun w =>
    let '(u, e) := sto_GetUserByName Storage (storage w) name in
    Returned ((u, as_error e), logged (CallGetUserByName name) w).

Definition Storage_GetUser (id : string)
  : Go W (models.User * option error) :=
  fun w =>
    let '(u, e) := sto_GetUser Storage (storage w) id in
    Returned ((u, as_error e), logged (CallGetUser id) w).

Definition Storage_ListUsers (limit offset : nat)
  : Go W (list models.User * option error) :=
  fun w =>
    let '(us, e) := sto_ListUsers Storage (storage w) limit offset in
    Returned ((us, as_error e), logged (CallListUsers limit offset) w).

Definition Storage_SaveUser (u : models.User) : Go W (option error) :=
  fun w =>
    let '(s', e) := sto_SaveUser Storage (storage w) u in
    Returned (as_error e, mkWorld s' (entropy w) (CallSaveUser u :: calls w)).

Definition Storage_UpdateUser (p : user_repository.UpdatePayload)
  : Go W (option error) :=
  fun w =>
    let '(s', e) := sto_UpdateUser Storage (storage w) p in
    Returned (as_error e, mkWorld s' (entropy w) (CallUpdateUser p :: calls w)).

Definition Storage_DeleteUser (id : string) : Go W (option error) :=
  fun w =>
    let '(s', e) := sto_DeleteUser Storage (storage w) id in
    Returned (as_error e, mkWorld s' (entropy w) (CallDeleteUser id :: calls w)).

(** *** Calls into the imported packages *)

Definition bcrypt_Generate (password : bytes) : Go W (bytes * option error) :=
  fun w =>
    let '((h, e), r') := bcrypt_GenerateFromPassword lib (entropy w) password in
    Returned ((h, option_map FromBcrypt e), mkWorld (storage w) r' (calls w)).

Definition bcrypt_Compare (hash password : bytes) : option error :=
  option_map FromBcrypt (bcrypt_CompareHashAndPassword lib hash password).

(** [generateUserID] *)
Definition generateUserID : Go W (string * option error) :=
  fun w =>
    let '((id, e), r') := gonanoid_Nanoid lib (entropy w) in
    Returned ((id, option_map FromNanoid e), mkWorld (storage w) r' (calls w)).

(** *** Validation *)

(** [validateName]: [len(name)] counts the bytes of the string. *)
Definition validateName (name : string) : option error :=
  let length := String.length name in
  if ((length =? 0) || (100 <? length))%nat
  then Some user_repository.ErrInvalidName
  else None.

(** [validatePassword] *)
Definition validatePassword (password : bytes) : option error :=
  if (List.length password <? 6)%nat
  then Some user_repository.ErrInvalidPassword
  else None.

(** *** The admin check *)

(** Modelled from the spec: [checkIfRequesterIsAdmin] is called by the
    repository but is not among the sources. The spec: fetch the
    requester's account by [requesterID]; if the lookup fails with
    [NotFound] the action is denied with [Forbidden]; otherwise test
    [isAdmin]. Any other storage fault is wrapped with context and
    propagated. *)
Definition checkIfRequesterIsAdmin (requesterID : string)
  : Go W (option error) :=
  let* (requester, err) := Storage_GetUser requesterID in
  match err with
  | Some (FromStorage NotFoundError) => go_ret (Some Forbidden)
  | Some e =>
      go_ret (Some (errors_Errorf "Error checking the requester %w" e))
  | None =>
      if models.IsAdmin requester
      then go_ret None
      else go_ret (Some Forbidden)
  end.

(** *** Trusted operations *)

(** [var notFoundError *sto.NotFoundError]: declared and never
    assigned, hence the nil pointer. *)
Definition notFoundError : ptr sto_error := nil_ptr.

(** [CheckLoginCredentials] *)
Definition CheckLoginCredentials (name : string) (password : bytes)
  : Go W (bool * option error) :=
  let* (user, err) := Storage_GetUserByName name in
  match err with
  | Some e =>
      let* isNotFound := go_lift (errors_As lib e notFoundError) in
      if (isNotFound : bool)
      then go_ret (false, None)
      else go_ret (false,
             Some (errors_Errorf "Error checking the login credentials %w" e))
  | None =>
      let err := bcrypt_Compare (models.Password user) password in
      go_ret (match err with None => true | Some _ => false end, None)
  end.

(** [Create]: the results are named, so a bare [return] hands back the
    current [user] and [err]. *)
Definition Create (name : string) (password : bytes) (isAdmin : bool)
  : Go W (models.User * option error) :=
  match validateName name with
  | Some err => go_ret (models.zero, Some err)
  | None =>
  match validatePassword password with
  | Some err => go_ret (models.zero, Some err)
  | None =>
  let* (pwHash, err) := bcrypt_Generate password in
  match err with
  | Some err => go_ret (models.zero, Some err)
  | None =>
  let* (id, err) := generateUserID in
  match err with
  | Some err => go_ret (models.zero, Some err)
  | None =>
  let user := models.mkUser id name pwHash isAdmin in
  let* err := Storage_SaveUser user in
  go_ret (user, err)
  end end end end.

(** [Get] *)
Definition Get (id : string) : Go W (models.User * option error) :=
  Storage_GetUser id.

(** [List] *)
Definition List (limit offset : nat)
  : Go W (list models.User * option error) :=
  Storage_ListUsers limit offset.

(** [Update] *)
Definition Update (payload : user_repository.UpdatePayload)
  : Go W (option error) :=
  match
    match user_repository.Name payload with
    | Some name => validateName name
    | None => None
    end
  with
  | Some err => go_ret (Some err)
  | None =>
  match
    match user_repository.Password payload with
    | Some password => validatePassword password
    | None => None
    end
  with
  | Some err => go_ret (Some err)
  | None => Storage_UpdateUser payload
  end end.

(** [Delete] *)
Definition Delete (id : string) : Go W (option error) :=
  Storage_DeleteUser id.

(** *** Authorization-checked operations *)

(** [CreateByUser] *)
Definition CreateByUser (requesterID name : string) (password : bytes)
    (isAdmin : bool) : Go W (models.User * option error) :=
  let* err := checkIfRequesterIsAdmin requesterID in
  match err with
  | Some err => go_ret (models.zero, Some err)
  | None => Create name password isAdmin
  end.

(** [GetByUser] *)
Definition GetByUser (requesterID id : string)
  : Go W (models.User * option error) :=
  if negb (String.eqb requesterID id)
  then
    let* err := checkIfRequesterIsAdmin requesterID in
    match err with
    | Some err => go_ret (models.zero, Some err)
    | None => Get id
    end
  else Get id.

(** [ListByUser] *)
Definition ListByUser (requesterID : string) (limit offset : nat)
  : Go W (list models.User * option error) :=
  let* err := checkIfRequesterIsAdmin requesterID in
  match err with
  | Some err => go_ret ([], Some err)
  | None => List limit offset
  end.

(** [UpdateByUser] *)
Definition UpdateByUser (requesterID : string)
    (user : user_repository.UpdatePayload) : Go W (option error) :=
  if negb (String.eqb requesterID (user_repository.ID user))
  then
    let* err := checkIfRequesterIsAdmin requesterID in
    match err with
    | Some err => go_ret (Some err)
    | None => Update user
    end
  else Update user.

(** [DeleteByUser] *)
Definition DeleteByUser (requesterID id : string) : Go W (option error) :=
  if negb (String.eqb requesterID id)
  then
    let* err := checkIfRequesterIsAdmin requesterID in
    match err with
    | Some err => go_ret (Some err)
    | None => Delete id
    end
  else Delete id.

End UserRepository.

(** ** [errors.As] of xerrors

    [As] panics unless its target is a non-nil pointer; with a proper
    target it reports whether an error of the target's type occurs in the
    chain of [err], following [%w] wrappings. *)

Fixpoint chain_has_NotFound (err : error) : bool :=
  match err with
  | FromStorage NotFoundError => true
  | errors_Errorf _ wrapped => chain_has_NotFound wrapped
  | _ => false
  end.

Definition xerrors_As (err : error) (target : ptr sto_error) : outcome bool :=
  match target with
  | nil_ptr => Panicked "errors: target must be a non-nil pointer"
  | ref _ => Returned (chain_has_NotFound err)
  end.

(** ** The session manager *)

Module sessions.

Import ITreeNotations.
Local Open Scope itree_scope.

(** [time.Duration] *)
Definition Duration : Type := Z.

(** Of the [SessionProvider] interface, the method the reclamation loop
    reaches: [GC() error], over a provider state [P]. *)
Record SessionProvider (P : Type) : Type := mkProvider {
  provider_GC : P -> P * option error
}.

(** What the body of the background job does to the outside: it reads
    the manager's flag, calls [manager.GC()], and sleeps. *)
Variant autoGCE : Type -> Type :=
| ReadShouldBeRunning : autoGCE bool
| CallGC : autoGCE (option error)
| Sleep (x : Duration) : autoGCE unit.

(** The goroutine started by [EnableAutoGC]:
    [for manager.autoGCShouldBeRunning { manager.GC(); time.Sleep(x) }].
    The result of [manager.GC()] is dropped. *)
Definition autoGC_job (x : Duration) : itree autoGCE unit :=
  ITree.iter
    (fun _ : unit =>
       running <- ITree.trigger ReadShouldBeRunning ;;
       if (running : bool)
       then
         _ <- ITree.trigger CallGC ;;
         ITree.trigger (Sleep x) ;;
         Ret (inl tt)
       else Ret (inr tt))
    tt.

(** [SessionManager]: the provider and the flag. *)
Record SessionManager (P : Type) : Type := mkManager {
  provider : P;
  autoGCShouldBeRunning : bool
}.

(** A manager together with the goroutines it has started, oldest
    first. *)
Record runtime (P : Type) : Type := mkRuntime {
  manager : SessionManager P;
  goroutines : list (itree autoGCE unit)
}.

Section Manager.

Context {P : Type}.

(** [NewSessionManager] *)
Definition NewSessionManager (p : P) : SessionManager P :=
  mkManager p false.

Definition boot (p : P) : runtime P :=
  mkRuntime (NewSessionManager p) [].

Definition set_flag (b : bool) (rt : runtime P) : runtime P :=
  mkRuntime (mkManager (provider (manager rt)) b) (goroutines rt).

Definition spawn (job : itree autoGCE unit) (rt : runtime P) : runtime P :=
  mkRuntime (manager rt) (goroutines rt ++ [job]).

Definition ErrAlreadyRunning : error :=
  errors_New "The autoGC job is already running".

Definition ErrNotRunning : error :=
  errors_New "The autoGC job was not running".

(** [EnableAutoGC], run by one caller without interference. *)
Definition EnableAutoGC (x : Duration) (rt : runtime P)
  : option error * runtime P :=
  if autoGCShouldBeRunning (manager rt)
  then (Some ErrAlreadyRunning, rt)
  else (None, spawn (autoGC_job x) (set_flag true rt)).

(** [DisableAutoGC] *)
Definition DisableAutoGC (rt : runtime P) : option error * runtime P :=
  if negb (autoGCShouldBeRunning (manager rt))
  then (Some ErrNotRunning, rt)
  else (None, set_flag false rt).

(** *** The two states of the Auto-GC loop *)

Inductive gc_state : Type := Stopped | Running.

Definition state_of (rt : runtime P) : gc_state :=
  if autoGCShouldBeRunning (manager rt) then Running else Stopped.

Inductive op : Type :=
| OpEnable (x : Duration)
| OpDisable.

Definition run_op (o : op) (rt : runtime P) : option error * runtime P :=
  match o with
  | OpEnable x => EnableAutoGC x rt
  | OpDisable => DisableAutoGC rt
  end.

(** A sequence of calls: the errors returned, in order, and the final
    runtime. *)
Fixpoint run_ops (os : list op) (rt : runtime P)
  : list (option error) * runtime P :=
  match os with
  | [] => ([], rt)
  | o :: os' =>
      let '(e, rt1) := run_op o rt in
      let '(es, rt2) := run_ops os' rt1 in
      (e :: es, rt2)
  end.

Definition is_enable (o : op) : bool :=
  match o with OpEnable _ => true | OpDisable => false end.

(** *** [EnableAutoGC] statement by statement

    Callers that run concurrently interleave at the statements of
    [EnableAutoGC]: the test of the flag, the assignment to the flag,
    and the [go] statement. *)

Inductive enable_pc : Type :=
| AtTest
| AtAssign
| AtGo
| AtReturn (err : option error).

Definition enable_step (x : Duration) (pc : enable_pc) (rt : runtime P)
  : enable_pc * runtime P :=
  match pc with
  | AtTest =>
      if autoGCShouldBeRunning (manager rt)
      then (AtReturn (Some ErrAlreadyRunning), rt)
      else (AtAssign, rt)
  | AtAssign => (AtGo, set_flag true rt)
  | AtGo => (AtReturn None, spawn (autoGC_job x) rt)
  | AtReturn err => (AtReturn err, rt)
  end.

(** The callers of [EnableAutoGC] in flight, each with its argument and
    its position, over the shared manager. *)
Record config : Type := mkConfig {
  shared : runtime P;
  callers : list (Duration * enable_pc)
}.

Fixpoint step_nth (i : nat) (cs : list (Duration * enable_pc))
    (rt : runtime P) : list (Duration * enable_pc) * runtime P :=
  match cs, i with
  | [], _ => ([], rt)
  | (x, pc) :: rest, O =>
      let '(pc', rt') := enable_step x pc rt in ((x, pc') :: rest, rt')
  | c :: rest, Datatypes.S j =>
      let '(rest', rt') := step_nth j rest rt in (c :: rest', rt')
  end.

(** One scheduling decision: caller [i] runs one statement. *)
Definition sched_step (i : nat) (c : config) : config :=
  let '(cs, rt) := step_nth i (callers c) (shared c) in mkConfig rt cs.

(** A schedule is the order in which the callers get to run. *)
Definition exec (schedule : list nat) (c : config) : config :=
  fold_left (fun c i => sched_step i c) schedule c.

(** *** Running the background job

    The job runs against the provider; what it reads from the flag at
    its [k]-th test is decided by the other goroutines, here
    [flag_at k]. Everything it does is recorded. *)

Variable Provider : SessionProvider P.

Inductive observed : Type :=
| DidTest (running : bool)
| DidGC (err : option error)
| DidSleep (x : Duration).

Record job_env : Type := mkJobEnv {
  flag_at : nat -> bool;
  tests : nat;
  prov : P;
  trace : list observed
}.

Definition job_handler : autoGCE ~> Monads.stateT job_env (itree void1) :=
  fun _ e s =>
    match e with
    | ReadShouldBeRunning =>
        let b := flag_at s (tests s) in
        Ret (mkJobEnv (flag_at s) (Datatypes.S (tests s)) (prov s)
               (trace s ++ [DidTest b]), b)
    | CallGC =>
        let '(p', err) := provider_GC Provider (prov s) in
        Ret (mkJobEnv (flag_at s) (tests s) p'
               (trace s ++ [DidGC err]), err)
    | Sleep x =>
        Ret (mkJobEnv (flag_at s) (tests s) (prov s)
               (trace s ++ [DidSleep x]), tt)
    end.

Definition run_job (x : Duration) (s : job_env)
  : itree void1 (job_env * unit) :=
  interp_state job_handler (autoGC_job x) s.

(** What [n] rounds of the loop leave behind: per round a test that
    read [true], a [GC()] with whatever it returned, and a sleep. *)
Fixpoint rounds (n : nat) (x : Duration) (p : P) : P * list observed :=
  match n with
  | O => (p, [])
  | Datatypes.S n' =>
      let '(p1, err) := provider_GC Provider p in
      let '(p2, tr) := rounds n' x p1 in
      (p2, DidTest true :: DidGC err :: DidSleep x :: tr)
  end.

End Manager.

End sessions.

(** ** An in-memory storage and stand-ins for the imported packages

    The repository is exercised on a storage that keeps its accounts in a
    list and can be switched off, so that every call fails with a storage
    fault. *)

Module memory.

Record state : Type := mkState {
  users : list models.User;
  down : bool
}.

Definition unavailable : sto_error := StorageFault "storage unavailable".

Definition has_id (id : string) (u : models.User) : bool :=
  String.eqb (models.ID u) id.

Definition has_name (name : string) (u : models.User) : bool :=
  String.eqb (models.Name u) name.

Definition lookup (f : models.User -> bool) (s : state)
  : models.User * option sto_error :=
  if down s then (models.zero, Some unavailable)
  else match find f (users s) with
       | Some u => (u, None)
       | None => (models.zero, Some NotFoundError)
       end.

Definition patch (p : user_repository.UpdatePayload) (u : models.User)
  : models.User :=
  if has_id (user_repository.ID p) u
  then models.mkUser (models.ID u)
         (match user_repository.Name p with
          | Some n => n | None => models.Name u end)
         (match user_repository.Password p with
          | Some pw => pw | None => models.Password u end)
         (match user_repository.IsAdmin p with
          | Some a => a | None => models.IsAdmin u end)
  else u.

Definition window (limit offset : nat) (us : list models.User)
  : list models.User :=
  let rest := skipn offset us in
  if (limit =? 0)%nat then rest else firstn limit rest.

Definition Storage : IStorage state :=
  mkStorage
    (fun s name => lookup (has_name name) s)
    (fun s id => lookup (has_id id) s)
    (fun s limit offset =>
       if down s then ([], Some unavailable)
       else (window limit offset (users s), None))
    (fun s u =>
       if down s then (s, Some unavailable)
       else if existsb (has_name (models.Name u)) (users s)
       then (s, Some (StorageFault "Duplicate entry"))
       else (mkState (users s ++ [u]) false, None))
    (fun s p =>
       if down s then (s, Some unavailable)
       else if existsb (has_id (user_repository.ID p)) (users s)
       then (mkState (map (patch p) (users s)) false, None)
       else (s, Some NotFoundError))
    (fun s id =>
       if down s then (s, Some unavailable)
       else if existsb (has_id id) (users s)
       then (mkState (filter (fun u => negb (has_id id u)) (users s)) false,
             None)
       else (s, Some NotFoundError)).

(** Stand-ins: a digest that reverses the secret, identifiers drawn from
    a supply, and [errors.As] as xerrors has it. *)
Definition libs : Imports (list string) :=
  mkImports
    (fun hash password =>
       if list_eq_dec Byte.byte_eq_dec hash (rev password)
       then None
       else Some "hashedPassword is not the hash of the given password")
    (fun r password => ((rev password, None), r))
    (fun r =>
       match r with
       | id :: r' => ((id, None), r')
       | [] => (("", Some "no entropy"), [])
       end)
    xerrors_As.

Definition secret (s : string) : bytes := list_byte_of_string s.

Definition start (us : list models.User) (ids : list string)
  : world state (list string) :=
  mkWorld (mkState us false) ids [].


(** Two accounts: [u1] is an ordinary user, [root] an admin. *)
Definition u1 : models.User :=
  models.mkUser "u1" "alice" (rev (secret "sixchr")) false.

Definition u2 : models.User :=
  models.mkUser "u2" "carol" (rev (secret "hunter22")) false.

Definition root : models.User :=
  models.mkUser "r0" "root" (rev (secret "toor-toor")) true.

End memory.

(** ** Who is asking, and what a call came to *)

Section Reading.

Context {S R : Type}.
Variable Storage : IStorage S.

(** What the storage knows about a requester: [Some true] for an admin,
    [Some false] for an account without the flag or for no account at
    all, [None] when the lookup itself breaks down. *)
Definition admin_status (w : world S R) (requesterID : string)
  : option bool :=
  match sto_GetUser Storage (storage w) requesterID with
  | (u, None) => Some (models.IsAdmin u)
  | (_, Some NotFoundError) => Some false
  | (_, Some (StorageFault _)) => None
  end.

(** The account stored under [id], if the storage has one. *)
Definition stored (w : world S R) (id : string) : option models.User :=
  match sto_GetUser Storage (storage w) id with
  | (u, None) => Some u
  | (_, Some _) => None
  end.

End Reading.

(** A call that hands back a value and an error. *)
Definition fails_with {W A} (e : error) (o : outcome ((A * option error) * W))
  : Prop :=
  exists a w', o = Returned ((a, Some e), w').

Definition succeeds_with {W A} (a : A) (o : outcome ((A * option error) * W))
  : Prop :=
  exists w', o = Returned ((a, None), w').

(** A call that hands back only an error. *)
Definition errs_with {W} (e : error) (o : outcome (option error * W)) : Prop :=
  exists w', o = Returned (Some e, w').

(** The present fields of a patch that pass validation. *)
Definition name_passes (p : user_repository.UpdatePayload) : Prop :=
  match user_repository.Name p with
  | Some name => 1 <= String.length name <= 100
  | None => True
  end.

Definition secret_passes (p : user_repository.UpdatePayload) : Prop :=
  match user_repository.Password p with
  | Some password => 6 <= List.length password
  | None => True
  end.

(** Worlds and patches the repository is exercised on. *)
Module scenario.

Import memory.

(** The storage holds [u1], [u2] and the admin [root]. *)
Definition w0 : world state (list string) := start [u1; u2; root] ["n1"].

(** The storage holds [u1] only: nobody is called bob. *)
Definition w1 : world state (list string) := start [u1] [].

(** A patch for an account that does not exist, with an empty name. *)
Definition ghost_patch : user_repository.UpdatePayload :=
  user_repository.mkUpdatePayload "ghost" (Some "") None None.

(** A valid patch for the same missing account. *)
Definition ghost_rename : user_repository.UpdatePayload :=
  user_repository.mkUpdatePayload "ghost" (Some "casper") None None.

(** A patch for [u1] with an empty name and a secret of three bytes. *)
Definition nameless_short_patch : user_repository.UpdatePayload :=
  user_repository.mkUpdatePayload "u1" (Some "") (Some (secret "abc")) None.

(** A patch for [u1] with a secret of three bytes and no name. *)
Definition short_secret_patch : user_repository.UpdatePayload :=
  user_repository.mkUpdatePayload "u1" None (Some (secret "abc")) None.

(** [u1] grants itself the admin flag. *)
Definition promote_u1 : user_repository.UpdatePayload :=
  user_repository.mkUpdatePayload "u1" None None (Some true).

(** [u1] renames itself. *)
Definition rename_u1 : user_repository.UpdatePayload :=
  user_repository.mkUpdatePayload "u1" (Some "alicia") None None.

(** A provider whose [GC()] fails every time; its state counts the
    calls. *)
Definition failing_provider : sessions.SessionProvider nat :=
  sessions.mkProvider
    (fun calls => (S calls, Some (FromStorage (StorageFault "gc failed")))).

(** A job that finds the flag set at its first two tests and cleared at
    the third. *)
Definition two_rounds : sessions.job_env (P := nat) :=
  sessions.mkJobEnv (fun k => (k <? 2)%nat) 0 0 [].

End scenario.

(** The packages again, with a bcrypt that has no randomness to draw on
    and fails. *)
Definition broken_bcrypt_libs : Imports (list string) :=
  mkImports
    (bcrypt_CompareHashAndPassword memory.libs)
    (fun r _ => (([], Some "crypto/rand: unavailable"), r))
    (gonanoid_Nanoid memory.libs)
    xerrors_As.

(** ** Counting what sequences and schedules of [EnableAutoGC] did *)

Section Counting.

Import sessions.

(** The interval of a call that started a job: an [EnableAutoGC] that
    returned [nil]. *)
Definition started_by (oe : op * option error) : list Duration :=
  match oe with
  | (OpEnable x, None) => [x]
  | _ => []
  end.

Definition enabled_ok (oe : op * option error) : bool :=
  match oe with
  | (OpEnable _, None) => true
  | _ => false
  end.

Definition disabled_ok (oe : op * option error) : bool :=
  match oe with
  | (OpDisable, None) => true
  | _ => false
  end.

(** [1] for a manager whose flag is set, [0] otherwise. *)
Definition running_now {P : Type} (rt : runtime P) : nat :=
  if autoGCShouldBeRunning (manager rt) then 1 else 0.

(** A caller of [EnableAutoGC] that has returned [nil]. *)
Definition returned_nil (c : Duration * enable_pc) : bool :=
  match snd c with
  | AtReturn None => true
  | _ => false
  end.

(** A caller that has returned, with or without an error. *)
Definition has_returned (c : Duration * enable_pc) : bool :=
  match snd c with
  | AtReturn _ => true
  | _ => false
  end.

(** A caller that has not read the flag yet, or was refused. *)
Definition idle_or_refused (c : Duration * enable_pc) : Prop :=
  snd c = AtTest \/ snd c = AtReturn (Some ErrAlreadyRunning).

(** A caller that is past the assignment to the flag. *)
Definition past_assign (c : Duration * enable_pc) : bool :=
  match snd c with
  | AtGo | AtReturn None => true
  | _ => false
  end.

(** A caller that has not reached the assignment to the flag. *)
Definition before_go (c : Duration * enable_pc) : bool :=
  match snd c with
  | AtTest | AtAssign => true
  | _ => false
  end.

(** Where the flag and the callers stand with respect to each other:
    either the flag is clear and no caller has reached its [go]
    statement, or the flag is set and some caller is past its assignment. *)
Definition handed_over {P : Type} (c : config (P := P)) : Prop :=
  (autoGCShouldBeRunning (manager (shared c)) = false
   /\ forallb before_go (callers c) = true)
  \/ (autoGCShouldBeRunning (manager (shared c)) = true
      /\ existsb past_assign (callers c) = true).

End Counting.

(** * Properties *)

(** ** The admin check and the guards built on it *)

Section Guards.

Context {S R : Type}.
Variable Storage : IStorage S.
Variable lib : Imports R.

Local Abbreviation W := (world S R).

Lemma check_admin_granted (w : W) (rid : string) :
  admin_status Storage w rid = Some true ->
  checkIfRequesterIsAdmin Storage rid w
  = Returned (None, logged (CallGetUser rid) w).
Proof.
  unfold admin_status, checkIfRequesterIsAdmin, go_bind, Storage_GetUser.
  destruct (sto_GetUser Storage (storage w) rid) as [u [[|t]|]];
    simpl; try discriminate.
  intros H. injection H as ->. reflexivity.
Qed.

Lemma check_admin_denied (w : W) (rid : string) :
  admin_status Storage w rid = Some false ->
  checkIfRequesterIsAdmin Storage rid w
  = Returned (Some Forbidden, logged (CallGetUser rid) w).
Proof.
  unfold admin_status, checkIfRequesterIsAdmin, go_bind, Storage_GetUser.
  destruct (sto_GetUser Storage (storage w) rid) as [u [[|t]|]];
    simpl; try discriminate; try reflexivity.
  intros H. injection H as ->. reflexivity.
Qed.

Lemma check_admin_verdict (w : W) (rid : string) (w' : W) :
  checkIfRequesterIsAdmin Storage rid w = Returned (None, w') ->
  admin_status Storage w rid = Some true.
Proof.
  unfold admin_status, checkIfRequesterIsAdmin, go_bind, Storage_GetUser.
  destruct (sto_GetUser Storage (storage w) rid) as [u [[|t]|]];
    simpl; try discriminate.
  destruct (models.IsAdmin u); simpl; [reflexivity | discriminate].
Qed.

Lemma check_admin_returns (w : W) (rid : string) :
  exists err,
    checkIfRequesterIsAdmin Storage rid w
    = Returned (err, logged (CallGetUser rid) w).
Proof.
  unfold checkIfRequesterIsAdmin, go_bind, Storage_GetUser.
  destruct (sto_GetUser Storage (storage w) rid) as [u [[|t]|]]; simpl;
    try (eexists; reflexivity).
  destruct (models.IsAdmin u); eexists; reflexivity.
Qed.

Lemma Get_stored (w : W) (id : string) (u : models.User) :
  stored Storage w id = Some u ->
  Get Storage id w = Returned ((u, None), logged (CallGetUser id) w).
Proof.
  unfold stored, Get, Storage_GetUser.
  destruct (sto_GetUser Storage (storage w) id) as [v [e|]];
    simpl; [discriminate|].
  intros H. injection H as ->. reflexivity.
Qed.

Lemma eqb_differs (a b : string) : a <> b -> negb (String.eqb a b) = true.
Proof.
  intros H. destruct (String.eqb_spec a b); [contradiction | reflexivity].
Qed.

Lemma eqb_same (a : string) : negb (String.eqb a a) = false.
Proof. rewrite String.eqb_refl. reflexivity. Qed.

(** C4. [GetByUser] lets a requester read its own account whatever its
    admin flag; for another account it hands over to [Get] exactly when
    the requester is an admin, and answers [Forbidden] for a requester
    that is not. With the target in the storage, handing over to [Get]
    is success. *)
Theorem GetByUser_self_or_admin (w : W) (requesterID id : string) :
  (requesterID = id -> GetByUser Storage requesterID id w = Get Storage id w)
  /\ (requesterID <> id ->
      admin_status Storage w requesterID = Some true ->
      GetByUser Storage requesterID id w
      = Get Storage id (logged (CallGetUser requesterID) w))
  /\ (requesterID <> id ->
      admin_status Storage w requesterID = Some false ->
      GetByUser Storage requesterID id w
      = Returned ((models.zero, Some Forbidden),
                  logged (CallGetUser requesterID) w))
  /\ (forall u, stored Storage w id = Some u ->
      (requesterID = id ->
       succeeds_with u (GetByUser Storage requesterID id w))
      /\ (requesterID <> id ->
          (succeeds_with u (GetByUser Storage requesterID id w)
           <-> admin_status Storage w requesterID = Some true))).
Proof.
  assert (Hself : requesterID = id ->
                  GetByUser Storage requesterID id w = Get Storage id w).
  { intros ->. unfold GetByUser. rewrite eqb_same. reflexivity. }
  assert (Hadm : requesterID <> id ->
                 admin_status Storage w requesterID = Some true ->
                 GetByUser Storage requesterID id w
                 = Get Storage id (logged (CallGetUser requesterID) w)).
  { intros Hne Ha. unfold GetByUser, go_bind.
    rewrite (eqb_differs Hne), (check_admin_granted _ _ Ha). reflexivity. }
  split; [exact Hself|]. split; [exact Hadm|]. split.
  - intros Hne Hd. unfold GetByUser, go_bind.
    rewrite (eqb_differs Hne), (check_admin_denied _ _ Hd). reflexivity.
  - intros u Hu. split.
    + intros Heq. rewrite (Hself Heq), (Get_stored _ _ Hu).
      eexists; reflexivity.
    + intros Hne. split.
      * intros [w' Hrun]. unfold GetByUser, go_bind in Hrun.
        rewrite (eqb_differs Hne) in Hrun.
        destruct (check_admin_returns w requesterID) as [[e|] He].
        -- rewrite He in Hrun. discriminate.
        -- eapply check_admin_verdict; eassumption.
      * intros Ha. rewrite (Hadm Hne Ha).
        unfold Get, Storage_GetUser, logged; simpl.
        unfold stored in Hu.
        destruct (sto_GetUser Storage (storage w) id) as [v [e|]];
          [discriminate|].
        injection Hu as ->. eexists; reflexivity.
Qed.

(** C7. A requester that is not an admin and asks to delete another
    account is answered [Forbidden]; the only storage call made is the
    lookup of the requester, so [DeleteUser] is never called and the
    storage is left as it was. *)
Theorem DeleteByUser_forbidden_no_delete (w : W) (u1 u2 : string) :
  u1 <> u2 ->
  admin_status Storage w u1 = Some false ->
  exists w',
    DeleteByUser Storage u1 u2 w = Returned (Some Forbidden, w')
    /\ storage w' = storage w
    /\ calls w' = CallGetUser u1 :: calls w.
Proof.
  intros Hne Hd. exists (logged (CallGetUser u1) w).
  unfold DeleteByUser, go_bind.
  rewrite (eqb_differs Hne), (check_admin_denied _ _ Hd).
  repeat split.
Qed.

(** On its own account a requester is not checked at all: whatever the
    patch carries, [UpdateByUser] is [Update]. *)
Lemma UpdateByUser_self (w : W) (p : user_repository.UpdatePayload) :
  UpdateByUser Storage (user_repository.ID p) p w = Update Storage p w.
Proof. unfold UpdateByUser. rewrite eqb_same. reflexivity. Qed.

End Guards.

(** ** Validation *)

Lemma validateName_invalid (name : string) :
  validateName name = Some user_repository.ErrInvalidName
  <-> (String.length name = 0 \/ 100 < String.length name).
Proof.
  unfold validateName.
  destruct (Nat.eqb_spec (String.length name) 0);
    destruct (Nat.ltb_spec 100 (String.length name)); simpl;
    split; intros Hx; try reflexivity; try discriminate; lia.
Qed.

Lemma validateName_valid (name : string) :
  validateName name = None
  <-> (1 <= String.length name /\ String.length name <= 100).
Proof.
  unfold validateName.
  destruct (Nat.eqb_spec (String.length name) 0);
    destruct (Nat.ltb_spec 100 (String.length name)); simpl;
    split; intros Hx; try reflexivity; try discriminate; lia.
Qed.

Lemma validatePassword_invalid (password : bytes) :
  validatePassword password = Some user_repository.ErrInvalidPassword
  <-> List.length password < 6.
Proof.
  unfold validatePassword.
  destruct (Nat.ltb_spec (List.length password) 6);
    split; intros Hx; try reflexivity; try discriminate; lia.
Qed.

Lemma validatePassword_valid (password : bytes) :
  validatePassword password = None <-> 6 <= List.length password.
Proof.
  unfold validatePassword.
  destruct (Nat.ltb_spec (List.length password) 6);
    split; intros Hx; try reflexivity; try discriminate; lia.
Qed.

Lemma validateName_cases (name : string) :
  validateName name = None
  \/ validateName name = Some user_repository.ErrInvalidName.
Proof. unfold validateName. destruct (_ || _); auto. Qed.

Lemma validatePassword_cases (password : bytes) :
  validatePassword password = None
  \/ validatePassword password = Some user_repository.ErrInvalidPassword.
Proof. unfold validatePassword. destruct (_ <? _)%nat; auto. Qed.

Section Trusted.

Context {S R : Type}.
Variable Storage : IStorage S.
Variable lib : Imports R.

Local Abbreviation W := (world S R).

(** Past validation, [Create] can only fail in bcrypt, in the
    identifier generator or in the storage. *)
Lemma Create_validated (name : string) (password : bytes) (isAdmin : bool)
    (w : W) (u : models.User) (e : error) (w' : W) :
  validateName name = None ->
  validatePassword password = None ->
  Create Storage lib name password isAdmin w = Returned ((u, Some e), w') ->
  (exists t, e = FromBcrypt t) \/ (exists t, e = FromNanoid t)
  \/ (exists x, e = FromStorage x).
Proof.
  intros Hn Hp. unfold Create. rewrite Hn, Hp.
  unfold go_bind, bcrypt_Generate, generateUserID, Storage_SaveUser, go_ret.
  destruct (bcrypt_GenerateFromPassword lib (entropy w) password)
    as [[h [t|]] r1]; simpl.
  - intros H; injection H as _ <- _. left; eexists; reflexivity.
  - destruct (gonanoid_Nanoid lib r1) as [[id [t|]] r2]; simpl.
    + intros H; injection H as _ <- _. right; left; eexists; reflexivity.
    + destruct (sto_SaveUser Storage (storage w) _) as [s' [x|]]; simpl.
      * intros H; injection H as _ <- _. right; right; eexists; reflexivity.
      * discriminate.
Qed.

Lemma Create_InvalidName (name : string) (password : bytes) (isAdmin : bool)
    (w : W) :
  fails_with user_repository.ErrInvalidName
    (Create Storage lib name password isAdmin w)
  <-> (String.length name = 0 \/ 100 < String.length name).
Proof.
  rewrite <- validateName_invalid. split.
  - intros (u & w' & H).
    destruct (validateName_cases name) as [Hn|Hn]; [|exact Hn].
    destruct (validatePassword_cases password) as [Hp|Hp].
    + destruct (Create_validated _ _ _ _ Hn Hp H) as [[t E]|[[t E]|[t E]]];
        discriminate E.
    + unfold Create in H. rewrite Hn, Hp in H. discriminate H.
  - intros Hn. unfold Create. rewrite Hn. eexists _, _; reflexivity.
Qed.

Lemma Create_InvalidPassword (name : string) (password : bytes)
    (isAdmin : bool) (w : W) :
  1 <= String.length name <= 100 ->
  (fails_with user_repository.ErrInvalidPassword
     (Create Storage lib name password isAdmin w)
   <-> List.length password < 6).
Proof.
  intros Hlen. apply validateName_valid in Hlen as Hn.
  rewrite <- validatePassword_invalid. split.
  - intros (u & w' & H).
    destruct (validatePassword_cases password) as [Hp|Hp]; [|exact Hp].
    destruct (Create_validated _ _ _ _ Hn Hp H) as [[t E]|[[t E]|[t E]]];
      discriminate E.
  - intros Hp. unfold Create. rewrite Hn, Hp. eexists _, _; reflexivity.
Qed.

Lemma Update_InvalidName (p : user_repository.UpdatePayload) (name : string)
    (w : W) :
  user_repository.Name p = Some name ->
  (errs_with user_repository.ErrInvalidName (Update Storage p w)
   <-> (String.length name = 0 \/ 100 < String.length name)).
Proof.
  intros Hp. rewrite <- validateName_invalid. unfold Update. rewrite Hp.
  destruct (validateName_cases name) as [Hn|Hn]; rewrite Hn.
  - split; [|discriminate]. intros [w' H].
    destruct (user_repository.Password p) as [pw|].
    + destruct (validatePassword_cases pw) as [Hv|Hv]; rewrite Hv in H.
      * unfold Storage_UpdateUser in H.
        destruct (sto_UpdateUser Storage (storage w) p) as [s' [x|]];
          discriminate H.
      * discriminate H.
    + unfold Storage_UpdateUser in H.
      destruct (sto_UpdateUser Storage (storage w) p) as [s' [x|]];
        discriminate H.
  - split; [reflexivity|]. intros _. eexists; reflexivity.
Qed.

Lemma Update_InvalidPassword (p : user_repository.UpdatePayload)
    (password : bytes) (w : W) :
  user_repository.Password p = Some password ->
  name_passes p ->
  (errs_with user_repository.ErrInvalidPassword (Update Storage p w)
   <-> List.length password < 6).
Proof.
  unfold name_passes.
  intros Hp Hname. rewrite <- validatePassword_invalid.
  unfold Update. rewrite Hp.
  assert (Hn : match user_repository.Name p with
               | Some name => validateName name
               | None => None
               end = None).
  { destruct (user_repository.Name p); [|reflexivity].
    apply validateName_valid; exact Hname. }
  rewrite Hn.
  destruct (validatePassword_cases password) as [Hv|Hv]; rewrite Hv.
  - split; [|discriminate]. intros [w' H].
    unfold Storage_UpdateUser in H.
    destruct (sto_UpdateUser Storage (storage w) p) as [s' [x|]];
      discriminate H.
  - split; [reflexivity|]. intros _. eexists; reflexivity.
Qed.

(** The name is checked first: [Create] fails with [ErrInvalidPassword]
    exactly when the name passes and the secret is too short. *)
Lemma Create_InvalidPassword_exactly (name : string) (password : bytes)
    (isAdmin : bool) (w : W) :
  fails_with user_repository.ErrInvalidPassword
    (Create Storage lib name password isAdmin w)
  <-> (1 <= String.length name <= 100 /\ List.length password < 6).
Proof.
  split.
  - intros Hf. destruct (validateName_cases name) as [Hn|Hn].
    + apply validateName_valid in Hn as Hlen. split; [exact Hlen|].
      apply (Create_InvalidPassword name password isAdmin w Hlen). exact Hf.
    + destruct Hf as (u & w' & H). unfold Create in H. rewrite Hn in H.
      discriminate H.
  - intros [Hlen Hp]. apply Create_InvalidPassword; assumption.
Qed.

(** The same for [Update], when the patch carries a secret. *)
Lemma Update_InvalidPassword_exactly (p : user_repository.UpdatePayload)
    (password : bytes) (w : W) :
  user_repository.Password p = Some password ->
  (errs_with user_repository.ErrInvalidPassword (Update Storage p w)
   <-> (name_passes p /\ List.length password < 6)).
Proof.
  intros Hp. split.
  - intros Hf.
    assert (Hn : name_passes p).
    { unfold name_passes.
      destruct (user_repository.Name p) as [name|] eqn:En; [|exact I].
      destruct (validateName_cases name) as [Hv|Hv].
      - apply validateName_valid. exact Hv.
      - destruct Hf as [w' H]. unfold Update in H. rewrite En, Hv in H.
        discriminate H. }
    split; [exact Hn|].
    apply (Update_InvalidPassword p w Hp Hn). exact Hf.
  - intros [Hn Hs]. apply (Update_InvalidPassword p w Hp Hn). exact Hs.
Qed.

(** C6, as the code has it. [validateName] rejects a name exactly when its
    length is 0 or above 100, [validatePassword] a secret exactly when it
    is shorter than 6. [Create] and [Update] check the name first: they
    fail with [ErrInvalidName] exactly on the rejected names, and with
    [ErrInvalidPassword] exactly when the name (where the patch carries
    one) passes and the secret is rejected. Lengths 1 and 100, and 6,
    pass. *)
Theorem validation_length_bounds (name : string) (password : bytes) :
  (validateName name = Some user_repository.ErrInvalidName
   <-> (String.length name = 0 \/ 100 < String.length name))
  /\ (validatePassword password = Some user_repository.ErrInvalidPassword
      <-> List.length password < 6)
  /\ (forall (isAdmin : bool) (w : W),
        fails_with user_repository.ErrInvalidName
          (Create Storage lib name password isAdmin w)
        <-> (String.length name = 0 \/ 100 < String.length name))
  /\ (forall (isAdmin : bool) (w : W),
        fails_with user_repository.ErrInvalidPassword
          (Create Storage lib name password isAdmin w)
        <-> (1 <= String.length name <= 100 /\ List.length password < 6))
  /\ (forall (p : user_repository.UpdatePayload) (w : W),
        user_repository.Name p = Some name ->
        (errs_with user_repository.ErrInvalidName (Update Storage p w)
         <-> (String.length name = 0 \/ 100 < String.length name)))
  /\ (forall (p : user_repository.UpdatePayload) (w : W),
        user_repository.Password p = Some password ->
        (errs_with user_repository.ErrInvalidPassword (Update Storage p w)
         <-> (name_passes p /\ List.length password < 6)))
  /\ (String.length name = 1 \/ String.length name = 100 ->
      validateName name = None)
  /\ (List.length password = 6 -> validatePassword password = None).
Proof.
  split; [apply validateName_invalid|].
  split; [apply validatePassword_invalid|].
  split; [intros; apply Create_InvalidName|].
  split; [intros; apply Create_InvalidPassword_exactly|].
  split; [intros; apply Update_InvalidName; assumption|].
  split; [intros; apply Update_InvalidPassword_exactly; assumption|].
  split.
  - intros H. apply validateName_valid. lia.
  - intros H. apply validatePassword_valid. lia.
Qed.

(** *** [Update]: validation comes before the storage *)

Lemma name_passes_validate (p : user_repository.UpdatePayload) :
  name_passes p ->
  match user_repository.Name p with
  | Some name => validateName name
  | None => None
  end = None.
Proof.
  unfold name_passes. destruct (user_repository.Name p); [|reflexivity].
  apply validateName_valid.
Qed.

Lemma secret_passes_validate (p : user_repository.UpdatePayload) :
  secret_passes p ->
  match user_repository.Password p with
  | Some password => validatePassword password
  | None => None
  end = None.
Proof.
  unfold secret_passes. destruct (user_repository.Password p); [|reflexivity].
  apply validatePassword_valid.
Qed.

(** C3, as the code has it. [Update] first validates the present
    fields, the name before the secret, and answers the first
    validation error without calling the storage, whether or not the
    target exists; only a patch whose present fields are valid reaches
    the storage's [UpdateUser], whose answer ([NotFound] included) is
    then the result. *)
Theorem Update_validates_before_storage
    (p : user_repository.UpdatePayload) (w : W) :
  (forall name,
      user_repository.Name p = Some name ->
      String.length name = 0 \/ 100 < String.length name ->
      Update Storage p w = Returned (Some user_repository.ErrInvalidName, w))
  /\ (forall password,
        name_passes p ->
        user_repository.Password p = Some password ->
        List.length password < 6 ->
        Update Storage p w
        = Returned (Some user_repository.ErrInvalidPassword, w))
  /\ (name_passes p -> secret_passes p ->
      Update Storage p w = Storage_UpdateUser Storage p w)
  /\ (name_passes p -> secret_passes p ->
      forall s', sto_UpdateUser Storage (storage w) p
                 = (s', Some NotFoundError) ->
      errs_with (FromStorage NotFoundError) (Update Storage p w)).
Proof.
  assert (Hsto : name_passes p -> secret_passes p ->
                 Update Storage p w = Storage_UpdateUser Storage p w).
  { intros Hn Hs. unfold Update.
    rewrite (name_passes_validate p Hn), (secret_passes_validate p Hs).
    reflexivity. }
  repeat split.
  - intros name Hp Hbad. apply validateName_invalid in Hbad.
    unfold Update. rewrite Hp, Hbad. reflexivity.
  - intros password Hn Hp Hbad. apply validatePassword_invalid in Hbad.
    unfold Update. rewrite (name_passes_validate p Hn), Hp, Hbad.
    reflexivity.
  - exact Hsto.
  - intros Hn Hs s' Hu. rewrite (Hsto Hn Hs).
    unfold Storage_UpdateUser. rewrite Hu. eexists; reflexivity.
Qed.

(** *** [CheckLoginCredentials] *)

(** A name the storage finds: the answer is what bcrypt says about the
    stored hash, and no error. *)
Lemma CheckLoginCredentials_found (name : string) (password : bytes)
    (w : W) (u : models.User) :
  sto_GetUserByName Storage (storage w) name = (u, None) ->
  CheckLoginCredentials Storage lib name password w
  = Returned
      ((match bcrypt_CompareHashAndPassword lib (models.Password u) password
        with None => true | Some _ => false end, None),
       logged (CallGetUserByName name) w).
Proof.
  intros H. unfold CheckLoginCredentials, go_bind, Storage_GetUserByName.
  rewrite H. simpl. unfold bcrypt_Compare, go_ret.
  destruct (bcrypt_CompareHashAndPassword lib _ _); reflexivity.
Qed.

(** A lookup that fails, for whatever reason, takes the nil pointer
    [notFoundError] to [errors.As]. *)
Lemma CheckLoginCredentials_lookup_failed (name : string) (password : bytes)
    (w : W) (u : models.User) (e : sto_error) :
  errors_As lib = xerrors_As ->
  sto_GetUserByName Storage (storage w) name = (u, Some e) ->
  CheckLoginCredentials Storage lib name password w
  = Panicked "errors: target must be a non-nil pointer".
Proof.
  intros HAs H.
  unfold CheckLoginCredentials, go_bind, Storage_GetUserByName.
  rewrite H. simpl. rewrite HAs. reflexivity.
Qed.

(** With the [errors.As] of xerrors no return of
    [CheckLoginCredentials] carries an error: the statement
    [return false, errors.Errorf(...)] is never reached. *)
Lemma CheckLoginCredentials_returns_nil_error (name : string)
    (password : bytes) (w : W) (matched : bool) (err : option error)
    (w' : W) :
  errors_As lib = xerrors_As ->
  CheckLoginCredentials Storage lib name password w
  = Returned ((matched, err), w') ->
  err = None.
Proof.
  intros HAs.
  unfold CheckLoginCredentials, go_bind, Storage_GetUserByName, go_lift,
    go_ret.
  destruct (sto_GetUserByName Storage (storage w) name) as [u [e|]]; simpl.
  - rewrite HAs. discriminate.
  - intros H. injection H as _ <- _. reflexivity.
Qed.

End Trusted.

(** ** The Auto-GC state machine *)

Section AutoGC.

Import sessions.

Context {P : Type}.

Lemma run_ops_app (os1 os2 : list op) (rt : runtime P) :
  run_ops (os1 ++ os2) rt
  = (fst (run_ops os1 rt) ++ fst (run_ops os2 (snd (run_ops os1 rt))),
     snd (run_ops os2 (snd (run_ops os1 rt)))).
Proof.
  revert rt. induction os1 as [|o os1 IH]; intros rt; simpl.
  - destruct (run_ops os2 rt); reflexivity.
  - destruct (run_op o rt) as [e rt1]. rewrite IH.
    destruct (run_ops os1 rt1) as [es rt2]. reflexivity.
Qed.

Lemma run_ops_length (os : list op) (rt : runtime P) :
  List.length (fst (run_ops os rt)) = List.length os.
Proof.
  revert rt. induction os as [|o os IH]; intros rt; simpl; [reflexivity|].
  destruct (run_op o rt) as [e rt1]. specialize (IH rt1).
  destruct (run_ops os rt1) as [es rt2]. simpl in *. now rewrite IH.
Qed.

Lemma Enable_then_running (x : Duration) (rt : runtime P) :
  state_of (snd (EnableAutoGC x rt)) = Running.
Proof.
  unfold EnableAutoGC, state_of.
  destruct (autoGCShouldBeRunning (manager rt)) eqn:E; simpl;
    [rewrite E|]; reflexivity.
Qed.

Lemma Enable_when_running (x : Duration) (rt : runtime P) :
  state_of rt = Running ->
  EnableAutoGC x rt = (Some ErrAlreadyRunning, rt).
Proof.
  unfold EnableAutoGC, state_of.
  destruct (autoGCShouldBeRunning (manager rt)); [reflexivity|discriminate].
Qed.

Lemma Disable_when_stopped (rt : runtime P) :
  state_of rt = Stopped ->
  DisableAutoGC rt = (Some ErrNotRunning, rt).
Proof.
  unfold DisableAutoGC, state_of.
  destruct (autoGCShouldBeRunning (manager rt)); [discriminate|reflexivity].
Qed.

Lemma stopped_without_enable (os : list op) (rt : runtime P) :
  forallb (fun o => negb (is_enable o)) os = true ->
  state_of rt = Stopped ->
  state_of (snd (run_ops os rt)) = Stopped.
Proof.
  revert rt. induction os as [|o os IH]; intros rt Hno Hst; simpl;
    [exact Hst|].
  simpl in Hno. apply andb_prop in Hno as [Ho Hno].
  destruct o as [x|]; [discriminate Ho|]. simpl.
  rewrite (Disable_when_stopped _ Hst).
  specialize (IH rt Hno Hst). destruct (run_ops os rt). exact IH.
Qed.

Lemma nth_error_middle {A} (l1 l2 : list A) (a : A) :
  nth_error (l1 ++ a :: l2) (List.length l1) = Some a.
Proof. induction l1; simpl; auto. Qed.

(** C5. The flag makes a two-state machine: [EnableAutoGC] takes
    [Stopped] to [Running] and is refused in [Running];
    [DisableAutoGC] takes [Running] to [Stopped] and is refused in
    [Stopped]. In any sequence of calls, from any state, the second of
    two consecutive [EnableAutoGC] is refused as already running; and on
    a new manager, a [DisableAutoGC] that no [EnableAutoGC] precedes is
    refused as not running. *)
Theorem autoGC_state_machine (rt : runtime P) (x y : Duration)
    (before after : list op) (p : P) :
  (state_of rt = Stopped ->
   fst (EnableAutoGC x rt) = None
   /\ state_of (snd (EnableAutoGC x rt)) = Running)
  /\ (state_of rt = Running ->
      EnableAutoGC x rt = (Some ErrAlreadyRunning, rt))
  /\ (state_of rt = Running ->
      fst (DisableAutoGC rt) = None
      /\ state_of (snd (DisableAutoGC rt)) = Stopped)
  /\ (state_of rt = Stopped ->
      DisableAutoGC rt = (Some ErrNotRunning, rt))
  /\ nth_error
       (fst (run_ops (before ++ OpEnable x :: OpEnable y :: after) rt))
       (S (List.length before))
     = Some (Some ErrAlreadyRunning)
  /\ (forallb (fun o => negb (is_enable o)) before = true ->
      nth_error (fst (run_ops (before ++ OpDisable :: after) (boot p)))
        (List.length before)
      = Some (Some ErrNotRunning)).
Proof.
  repeat split.
  - unfold EnableAutoGC, state_of in *.
    destruct (autoGCShouldBeRunning (manager rt)); [discriminate|reflexivity].
  - apply Enable_then_running.
  - apply Enable_when_running.
  - unfold DisableAutoGC, state_of in *.
    destruct (autoGCShouldBeRunning (manager rt)); [reflexivity|discriminate].
  - unfold DisableAutoGC, state_of in *.
    destruct (autoGCShouldBeRunning (manager rt)); [reflexivity|discriminate].
  - apply Disable_when_stopped.
  - rewrite run_ops_app. cbn [fst snd].
    set (rt1 := snd (run_ops before rt)).
    cbn [run_ops run_op].
    pose proof (Enable_then_running x rt1) as Hrun.
    destruct (EnableAutoGC x rt1) as [e1 rt2]. cbn [snd] in Hrun.
    rewrite (Enable_when_running y _ Hrun).
    destruct (run_ops after rt2) as [es rt3]. cbn [fst].
    rewrite <- (run_ops_length before rt).
    change (e1 :: Some ErrAlreadyRunning :: es)
      with ([e1] ++ Some ErrAlreadyRunning :: es).
    rewrite app_assoc.
    replace (S (List.length (fst (run_ops before rt))))
      with (List.length (fst (run_ops before rt) ++ [e1]))
      by (rewrite length_app; simpl; lia).
    apply nth_error_middle.
  - intros Hno. rewrite run_ops_app. cbn [fst snd].
    pose proof (stopped_without_enable before (boot p) Hno eq_refl) as Hst.
    cbn [run_ops run_op].
    rewrite (Disable_when_stopped _ Hst).
    destruct (run_ops after _) as [es rt3]. cbn [fst].
    rewrite <- (run_ops_length before (boot p)).
    apply nth_error_middle.
Qed.

End AutoGC.

(** ** Concurrent callers of [EnableAutoGC] *)

Section Race.

Import sessions.

Context {P : Type}.

(** A caller that runs its three statements undisturbed does what
    [EnableAutoGC] does. *)
Lemma exec_alone (x : Duration) (rt : runtime P) :
  exec [0; 0; 0] (mkConfig rt [(x, AtTest)])
  = mkConfig (snd (EnableAutoGC x rt))
      [(x, AtReturn (fst (EnableAutoGC x rt)))].
Proof.
  unfold exec, sched_step, EnableAutoGC; simpl.
  destruct (autoGCShouldBeRunning (manager rt)); reflexivity.
Qed.

(** Two callers one after the other: the second is refused and one job
    runs. *)
Lemma exec_in_turn (x y : Duration) (p : P) :
  exec [0; 0; 0; 1; 1; 1]
    (mkConfig (boot p) [(x, AtTest); (y, AtTest)])
  = mkConfig (mkRuntime (mkManager p true) [autoGC_job x])
      [(x, AtReturn None); (y, AtReturn (Some ErrAlreadyRunning))].
Proof. reflexivity. Qed.

(** C8, on the code. Two callers of [EnableAutoGC] on a new manager,
    scheduled statement by statement in turn: both test the flag before
    either sets it, both return [nil], and the manager has started two
    jobs while the flag is set. *)
Theorem EnableAutoGC_race_starts_two_jobs (x y : Duration) (p : P) :
  exec [0; 1; 0; 1; 0; 1]
    (mkConfig (boot p) [(x, AtTest); (y, AtTest)])
  = mkConfig (mkRuntime (mkManager p true) [autoGC_job x; autoGC_job y])
      [(x, AtReturn None); (y, AtReturn None)].
Proof. reflexivity. Qed.

End Race.

(** ** The background job *)

Section Job.

Import sessions.
Import ITreeNotations.
Local Open Scope itree_scope.

Context {P : Type}.
Variable Provider : SessionProvider P.

(** One turn of the loop: test the flag; if it is set, call [GC()],
    sleep, and start over, whatever [GC()] returned. *)
Lemma autoGC_job_unfold (x : Duration) :
  autoGC_job x
  ≈ (running <- ITree.trigger ReadShouldBeRunning ;;
     if (running : bool)
     then _ <- ITree.trigger CallGC ;;
          ITree.trigger (Sleep x) ;;
          autoGC_job x
     else Ret tt).
Proof.
  unfold autoGC_job at 1. rewrite unfold_iter. rewrite bind_bind.
  apply eutt_eq_bind. intros [|].
  - rewrite !bind_bind. apply eutt_eq_bind. intros _.
    rewrite bind_bind. apply eutt_eq_bind. intros [].
    rewrite bind_ret_l, tau_eutt. reflexivity.
  - rewrite bind_ret_l. reflexivity.
Qed.

(** One round: with the flag set at this test, the job tests, calls
    [GC()], sleeps, and is the same job again. *)
Lemma run_job_round (x : Duration) (s : job_env) :
  flag_at s (tests s) = true ->
  run_job Provider x s
  ≈ run_job Provider x
      (mkJobEnv (flag_at s) (S (tests s))
         (fst (provider_GC Provider (prov s)))
         (trace s ++ [DidTest true;
                      DidGC (snd (provider_GC Provider (prov s)));
                      DidSleep x])).
Proof.
  intros Hset. unfold run_job at 1. rewrite autoGC_job_unfold.
  rewrite interp_state_bind, interp_state_trigger. cbn.
  rewrite bind_ret_l. cbn. rewrite Hset.
  rewrite interp_state_bind, interp_state_trigger. cbn.
  destruct (provider_GC Provider (prov s)) as [p1 err].
  rewrite bind_ret_l. cbn.
  rewrite interp_state_bind, interp_state_trigger. cbn.
  rewrite bind_ret_l. cbn.
  rewrite <- !app_assoc. reflexivity.
Qed.

(** With the flag cleared at this test, the job returns. *)
Lemma run_job_exit (x : Duration) (s : job_env) :
  flag_at s (tests s) = false ->
  run_job Provider x s
  ≈ Ret (mkJobEnv (flag_at s) (S (tests s)) (prov s)
           (trace s ++ [DidTest false]), tt).
Proof.
  intros Hclear. unfold run_job. rewrite autoGC_job_unfold.
  rewrite interp_state_bind, interp_state_trigger. cbn.
  rewrite bind_ret_l. cbn. rewrite Hclear.
  rewrite interp_state_ret. reflexivity.
Qed.

(** C9. As long as the job reads the flag as set it goes round: a test,
    a [GC()], a sleep of the configured interval, and only then the next
    test. What [GC()] returns, error or not, goes nowhere: the job neither
    returns it nor stops on it. So, for every provider, with the flag set
    at the first [n] tests the job makes [n] rounds and is the same job
    again; and if the flag is cleared at the next test, it returns there. *)
Theorem autoGC_job_rounds (x : Duration) (n : nat) (s : job_env) :
  (forall k, k < n -> flag_at s (tests s + k) = true) ->
  run_job Provider x s
  ≈ run_job Provider x
      (mkJobEnv (flag_at s) (tests s + n)
         (fst (rounds Provider n x (prov s)))
         (trace s ++ snd (rounds Provider n x (prov s))))
  /\ (flag_at s (tests s + n) = false ->
      run_job Provider x s
      ≈ Ret (mkJobEnv (flag_at s) (S (tests s + n))
               (fst (rounds Provider n x (prov s)))
               (trace s ++ snd (rounds Provider n x (prov s))
                  ++ [DidTest false]),
             tt)).
Proof.
  intros Hset.
  assert (Hgo : run_job Provider x s
                ≈ run_job Provider x
                    (mkJobEnv (flag_at s) (tests s + n)
                       (fst (rounds Provider n x (prov s)))
                       (trace s ++ snd (rounds Provider n x (prov s))))).
  { revert s Hset. induction n as [|n IH]; intros s Hset.
    - cbn. rewrite Nat.add_0_r, app_nil_r. destruct s; reflexivity.
    - rewrite run_job_round
        by (rewrite <- (Nat.add_0_r (tests s)); apply Hset; lia).
      rewrite IH; cbn.
      + destruct (provider_GC Provider (prov s)) as [p1 err]. cbn.
        destruct (rounds Provider n x p1) as [p2 tr]. cbn.
        rewrite <- app_assoc. cbn.
        replace (S (tests s + n)) with (tests s + S n) by lia.
        reflexivity.
      + intros k Hk. replace (S (tests s + k)) with (tests s + S k) by lia.
        apply Hset. lia. }
  split; [exact Hgo|].
  intros Hclear. rewrite Hgo. rewrite run_job_exit by exact Hclear.
  cbn. rewrite <- app_assoc. reflexivity.
Qed.

End Job.

(** ** The repository on the in-memory storage *)

Section OnMemory.

Import memory scenario.

(** C1, on the code. [u1] is not an admin; its patch on itself carrying
    [isAdmin = true] is not refused: [UpdateByUser] returns [nil], the
    only storage call is the [UpdateUser] that applies the patch, and
    [u1] is an admin afterwards. *)
Theorem UpdateByUser_self_promotion :
  admin_status Storage w0 "u1" = Some false
  /\ exists w',
      UpdateByUser Storage "u1" promote_u1 w0 = Returned (None, w')
      /\ calls w' = [CallUpdateUser promote_u1]
      /\ admin_status Storage w' "u1" = Some true.
Proof.
  split; [reflexivity|]. eexists. split; [reflexivity|]. split; reflexivity.
Qed.

(** The same requester renames itself the same way. *)
Example UpdateByUser_self_rename :
  exists w',
    UpdateByUser Storage "u1" rename_u1 w0 = Returned (None, w')
    /\ option_map models.Name (stored Storage w' "u1") = Some "alicia".
Proof. eexists. split; reflexivity. Qed.

(** C2, on the code. Nobody is called bob, the storage answers
    [NotFoundError], and [CheckLoginCredentials] does not return
    [false] and [nil]: it panics in [errors.As]. *)
Theorem CheckLoginCredentials_absent_name_panics (password : bytes) :
  sto_GetUserByName Storage (storage w1) "bob"
  = (models.zero, Some NotFoundError)
  /\ CheckLoginCredentials Storage libs "bob" password w1
     = Panicked "errors: target must be a non-nil pointer".
Proof. split; reflexivity. Qed.

(** A stored name with its secret, and with another one. *)
Example CheckLoginCredentials_alice :
  CheckLoginCredentials Storage libs "alice" (secret "sixchr") w1
  = Returned ((true, None), logged (CallGetUserByName "alice") w1)
  /\ CheckLoginCredentials Storage libs "alice" (secret "wrong1") w1
     = Returned ((false, None), logged (CallGetUserByName "alice") w1).
Proof. split; reflexivity. Qed.

(** The claim C3 fails here: the target of [ghost_patch] does not exist
    and its name is empty, and [Update] answers [ErrInvalidName], not
    [NotFoundError], without calling the storage. *)
Lemma Update_missing_target_invalid_name :
  sto_GetUser Storage (storage w0) "ghost"
  = (models.zero, Some NotFoundError)
  /\ Update Storage ghost_patch w0
     = Returned (Some user_repository.ErrInvalidName, w0)
  /\ ~ errs_with (FromStorage NotFoundError) (Update Storage ghost_patch w0).
Proof.
  split; [reflexivity|]. split; [reflexivity|].
  intros [w' H]. discriminate H.
Qed.

(** The claim C6 fails here: the secret has three bytes, but the name is
    empty and is checked first, so [Create] and [Update] answer
    [ErrInvalidName] and not [ErrInvalidPassword]. *)
Lemma secret_checked_after_name :
  List.length (secret "abc") < 6
  /\ Create Storage libs "" (secret "abc") false w0
     = Returned ((models.zero, Some user_repository.ErrInvalidName), w0)
  /\ ~ fails_with user_repository.ErrInvalidPassword
        (Create Storage libs "" (secret "abc") false w0)
  /\ Update Storage nameless_short_patch w0
     = Returned (Some user_repository.ErrInvalidName, w0)
  /\ ~ errs_with user_repository.ErrInvalidPassword
        (Update Storage nameless_short_patch w0).
Proof.
  split; [simpl; lia|]. split; [reflexivity|]. split.
  - intros (u & w' & H). discriminate H.
  - split; [reflexivity|]. intros [w' H]. discriminate H.
Qed.


End OnMemory.

(** ** The statements above at work *)

Section Instances.

Import memory scenario.

Lemma GetByUser_self_or_admin_witness :
  GetByUser Storage "u1" "u1" w0 = Get Storage "u1" w0
  /\ GetByUser Storage "u1" "u2" w0
     = Returned ((models.zero, Some Forbidden), logged (CallGetUser "u1") w0)
  /\ succeeds_with u2 (GetByUser Storage "r0" "u2" w0).
Proof.
  split; [|split].
  - apply (proj1 (GetByUser_self_or_admin Storage w0 "u1" "u1")).
    reflexivity.
  - apply (proj1 (proj2 (proj2
             (GetByUser_self_or_admin Storage w0 "u1" "u2")))).
    + discriminate.
    + reflexivity.
  - apply (proj2 (proj2 (proj2 (proj2
             (GetByUser_self_or_admin Storage w0 "r0" "u2")))
             u2 eq_refl)).
    + discriminate.
    + reflexivity.
Defined.

Lemma DeleteByUser_forbidden_no_delete_witness :
  "u1" <> "u2"
  /\ admin_status Storage w0 "u1" = Some false
  /\ exists w',
      DeleteByUser Storage "u1" "u2" w0 = Returned (Some Forbidden, w')
      /\ storage w' = storage w0
      /\ calls w' = CallGetUser "u1" :: calls w0.
Proof.
  split; [discriminate|]. split; [reflexivity|].
  apply (DeleteByUser_forbidden_no_delete Storage w0 (u1 := "u1") (u2 := "u2")).
  - discriminate.
  - reflexivity.
Defined.

Lemma validation_length_bounds_witness :
  validateName "" = Some user_repository.ErrInvalidName
  /\ validatePassword (secret "abc") = Some user_repository.ErrInvalidPassword
  /\ fails_with user_repository.ErrInvalidName
       (Create Storage libs "" (secret "abc") false w0)
  /\ fails_with user_repository.ErrInvalidPassword
       (Create Storage libs "dave" (secret "abc") false w0)
  /\ errs_with user_repository.ErrInvalidName
       (Update Storage nameless_short_patch w0)
  /\ errs_with user_repository.ErrInvalidPassword
       (Update Storage short_secret_patch w0)
  /\ validateName "a" = None
  /\ validatePassword (secret "sixchr") = None.
Proof.
  split; [|split; [|split; [|split; [|split; [|split; [|split]]]]]].
  - apply (proj1 (validation_length_bounds Storage libs "" (secret "abc"))).
    left; reflexivity.
  - apply (proj1 (proj2
             (validation_length_bounds Storage libs "" (secret "abc")))).
    simpl; lia.
  - apply (proj1 (proj2 (proj2
             (validation_length_bounds Storage libs "" (secret "abc"))))
             false w0).
    left; reflexivity.
  - apply (proj1 (proj2 (proj2 (proj2
             (validation_length_bounds Storage libs "dave" (secret "abc")))))
             false w0).
    simpl; lia.
  - apply (proj1 (proj2 (proj2 (proj2 (proj2
             (validation_length_bounds Storage libs "" (secret "abc"))))))
             nameless_short_patch w0 eq_refl).
    left; reflexivity.
  - apply (proj1 (proj2 (proj2 (proj2 (proj2 (proj2
             (validation_length_bounds Storage libs "" (secret "abc")))))))
             short_secret_patch w0 eq_refl).
    split; [exact I | simpl; lia].
  - apply (proj1 (proj2 (proj2 (proj2 (proj2 (proj2 (proj2
             (validation_length_bounds Storage libs "a" (secret "abc"))))))))).
    left; reflexivity.
  - apply (proj2 (proj2 (proj2 (proj2 (proj2 (proj2 (proj2
             (validation_length_bounds Storage libs "a"
                (secret "sixchr"))))))))).
    reflexivity.
Defined.

Lemma Update_validates_before_storage_witness :
  Update Storage ghost_patch w0
  = Returned (Some user_repository.ErrInvalidName, w0)
  /\ Update Storage ghost_rename w0 = Storage_UpdateUser Storage ghost_rename w0
  /\ errs_with (FromStorage NotFoundError) (Update Storage ghost_rename w0).
Proof.
  split; [|split].
  - apply (proj1 (Update_validates_before_storage Storage ghost_patch w0) "").
    + reflexivity.
    + left; reflexivity.
  - apply (proj1 (proj2 (proj2
             (Update_validates_before_storage Storage ghost_rename w0)))).
    + unfold name_passes; simpl; lia.
    + exact I.
  - apply (proj2 (proj2 (proj2
             (Update_validates_before_storage Storage ghost_rename w0)))
             ltac:(unfold name_passes; simpl; lia) I (storage w0)).
    reflexivity.
Defined.

Import sessions.
Import ITreeNotations.
Local Open Scope itree_scope.

Lemma autoGC_state_machine_witness :
  fst (EnableAutoGC 5%Z (boot tt)) = None
  /\ state_of (snd (EnableAutoGC 5%Z (boot tt))) = Running
  /\ EnableAutoGC 7%Z (snd (EnableAutoGC 5%Z (boot tt)))
     = (Some ErrAlreadyRunning, snd (EnableAutoGC 5%Z (boot tt)))
  /\ fst (DisableAutoGC (snd (EnableAutoGC 5%Z (boot tt)))) = None
  /\ DisableAutoGC (boot tt) = (Some ErrNotRunning, boot tt)
  /\ nth_error
       (fst (run_ops ([OpDisable] ++ OpDisable :: [OpEnable 5%Z]) (boot tt)))
       (List.length [OpDisable])
     = Some (Some ErrNotRunning).
Proof.
  pose proof (autoGC_state_machine (boot tt) 5%Z 7%Z [OpDisable] [OpEnable 5%Z] tt)
    as (Hen & _ & _ & Hdis & _ & Hseq).
  pose proof (autoGC_state_machine (snd (EnableAutoGC 5%Z (boot tt))) 7%Z 7%Z
                [] [] tt)
    as (_ & Hen2 & Hdis2 & _).
  split; [apply Hen; reflexivity|].
  split; [apply Hen; reflexivity|].
  split; [apply Hen2; reflexivity|].
  split; [apply Hdis2; reflexivity|].
  split; [apply Hdis; reflexivity|].
  apply Hseq. reflexivity.
Defined.

Lemma autoGC_job_rounds_witness :
  run_job failing_provider 5%Z two_rounds
  ≈ Ret (mkJobEnv (flag_at two_rounds) 3 2
           [DidTest true;
            DidGC (Some (FromStorage (StorageFault "gc failed")));
            DidSleep 5%Z;
            DidTest true;
            DidGC (Some (FromStorage (StorageFault "gc failed")));
            DidSleep 5%Z;
            DidTest false],
         tt).
Proof.
apply (autoGC_job_rounds failing_provider 5%Z (n := 2) two_rounds).
- intros [|[|k]] Hk; [reflexivity | reflexivity | lia].
- reflexivity.
Defined.

End Instances.


(** * More of the repository *)

Section CreateFacts.

Context {S R : Type}.
Variable Storage : IStorage S.
Variable lib : Imports R.

Local Abbreviation W := (world S R).

(** [Create] turns down a bad name, and after it a bad secret, before
    anything else happens: the zero user comes back, no hash is computed,
    no identifier is drawn and the storage is not called. A bad name wins
    over a bad secret. *)
Theorem Create_rejects_untouched (name : string) (password : bytes)
    (isAdmin : bool) (w : W) :
  (String.length name = 0 \/ 100 < String.length name ->
   Create Storage lib name password isAdmin w
   = Returned ((models.zero, Some user_repository.ErrInvalidName), w))
  /\ (1 <= String.length name <= 100 ->
      List.length password < 6 ->
      Create Storage lib name password isAdmin w
      = Returned ((models.zero, Some user_repository.ErrInvalidPassword), w)).
Proof.
  split.
  - intros Hbad. apply validateName_invalid in Hbad.
    unfold Create. rewrite Hbad. reflexivity.
  - intros Hn Hp. apply validateName_valid in Hn.
    apply validatePassword_invalid in Hp.
    unfold Create. rewrite Hn, Hp. reflexivity.
Qed.

(** With valid input, a hash from bcrypt and an identifier from the
    generator, [Create] saves exactly one user: the generated identifier,
    the name and the admin flag as given, and as password the hash, not
    the secret. That user is what it returns, with whatever the storage
    answered, an error included. *)
Theorem Create_saves_hashed_user (name : string) (password : bytes)
    (isAdmin : bool) (w : W) (hash : bytes) (id : string) (r1 r2 : R) :
  1 <= String.length name <= 100 ->
  6 <= List.length password ->
  bcrypt_GenerateFromPassword lib (entropy w) password = ((hash, None), r1) ->
  gonanoid_Nanoid lib r1 = ((id, None), r2) ->
  let user := models.mkUser id name hash isAdmin in
  Create Storage lib name password isAdmin w
  = Returned
      ((user, as_error (snd (sto_SaveUser Storage (storage w) user))),
       mkWorld (fst (sto_SaveUser Storage (storage w) user)) r2
         (CallSaveUser user :: calls w)).
Proof.
  intros Hn Hp Hb Hi user.
  apply validateName_valid in Hn. apply validatePassword_valid in Hp.
  unfold Create. rewrite Hn, Hp.
  unfold go_bind, bcrypt_Generate, generateUserID, Storage_SaveUser, go_ret.
  rewrite Hb. simpl. rewrite Hi. simpl. fold user.
  destruct (sto_SaveUser Storage (storage w) user) as [s' e]. reflexivity.
Qed.

(** When bcrypt fails, [Create] draws no identifier; when the identifier
    generator fails, the hash is thrown away. Either way the zero user
    comes back with that failure and the storage is not called. *)
Theorem Create_generator_failure (name : string) (password : bytes)
    (isAdmin : bool) (w : W) (hash : bytes) (id : string) (t : string)
    (r1 r2 : R) :
  1 <= String.length name <= 100 ->
  6 <= List.length password ->
  (bcrypt_GenerateFromPassword lib (entropy w) password
   = ((hash, Some t), r1) ->
   Create Storage lib name password isAdmin w
   = Returned ((models.zero, Some (FromBcrypt t)),
               mkWorld (storage w) r1 (calls w)))
  /\ (bcrypt_GenerateFromPassword lib (entropy w) password
      = ((hash, None), r1) ->
      gonanoid_Nanoid lib r1 = ((id, Some t), r2) ->
      Create Storage lib name password isAdmin w
      = Returned ((models.zero, Some (FromNanoid t)),
                  mkWorld (storage w) r2 (calls w))).
Proof.
  intros Hn Hp.
  apply validateName_valid in Hn. apply validatePassword_valid in Hp.
  split.
  - intros Hb. unfold Create. rewrite Hn, Hp.
    unfold go_bind, bcrypt_Generate. rewrite Hb. reflexivity.
  - intros Hb Hi. unfold Create. rewrite Hn, Hp.
    unfold go_bind, bcrypt_Generate, generateUserID.
    rewrite Hb. simpl. rewrite Hi. reflexivity.
Qed.

(** Whatever its arguments, [Create] returns, and it does one of two
    things. Either it fails before the storage: the zero user, an error
    that is not the storage's, the storage as it was and not called. Or
    it calls [SaveUser] once, on the user it returns, who carries the name
    and the admin flag given. *)
Theorem Create_one_save_or_none (name : string) (password : bytes)
    (isAdmin : bool) (w : W) :
  exists u e w',
    Create Storage lib name password isAdmin w = Returned ((u, e), w')
    /\ ((u = models.zero
         /\ (exists err, e = Some err /\ forall x, err <> FromStorage x)
         /\ storage w' = storage w
         /\ calls w' = calls w)
        \/ (models.Name u = name
            /\ models.IsAdmin u = isAdmin
            /\ calls w' = CallSaveUser u :: calls w
            /\ storage w' = fst (sto_SaveUser Storage (storage w) u)
            /\ e = as_error (snd (sto_SaveUser Storage (storage w) u)))).
Proof.
  unfold Create.
  destruct (validateName_cases name) as [Hn|Hn]; rewrite Hn.
  2:{ eexists _, _, _. split; [reflexivity|]. left.
      repeat split. eexists; split; [reflexivity|]. discriminate. }
  destruct (validatePassword_cases password) as [Hp|Hp]; rewrite Hp.
  2:{ eexists _, _, _. split; [reflexivity|]. left.
      repeat split. eexists; split; [reflexivity|]. discriminate. }
  unfold go_bind, bcrypt_Generate, generateUserID, Storage_SaveUser, go_ret.
  destruct (bcrypt_GenerateFromPassword lib (entropy w) password)
    as [[h [t|]] r1]; simpl.
  { eexists _, _, _. split; [reflexivity|]. left.
    repeat split. eexists; split; [reflexivity|]. discriminate. }
  destruct (gonanoid_Nanoid lib r1) as [[id [t|]] r2]; simpl.
  { eexists _, _, _. split; [reflexivity|]. left.
    repeat split. eexists; split; [reflexivity|]. discriminate. }
  destruct (sto_SaveUser Storage (storage w) (models.mkUser id name h isAdmin))
    as [s' e] eqn:Hs.
  eexists _, _, _. split; [reflexivity|]. right. simpl.
  rewrite Hs. repeat split.
Qed.

(** [CheckLoginCredentials] only reads: whenever it returns, the storage
    and the entropy are as they were, and the one storage call it made is
    the lookup of the name; the secret is not handed to the storage. *)
Theorem CheckLoginCredentials_reads_only (name : string) (password : bytes)
    (w : W) (r : bool * option error) (w' : W) :
  CheckLoginCredentials Storage lib name password w = Returned (r, w') ->
  storage w' = storage w
  /\ entropy w' = entropy w
  /\ calls w' = CallGetUserByName name :: calls w.
Proof.
  unfold CheckLoginCredentials, go_bind, Storage_GetUserByName, go_lift,
    go_ret.
  destruct (sto_GetUserByName Storage (storage w) name) as [u [e|]]; simpl.
  - destruct (errors_As lib (FromStorage e) notFoundError) as [[|]|msg];
      intros H; try discriminate H; injection H as _ <-; repeat split.
  - intros H; injection H as _ <-; repeat split.
Qed.

(** For a name the storage finds, the answer of [CheckLoginCredentials]
    is bcrypt's verdict on the stored hash and the given secret, and the
    error is [nil], also when the secret is wrong. *)
Theorem CheckLoginCredentials_verdict (name : string) (password : bytes)
    (w : W) (u : models.User) :
  sto_GetUserByName Storage (storage w) name = (u, None) ->
  exists w',
    CheckLoginCredentials Storage lib name password w
    = Returned
        ((match bcrypt_CompareHashAndPassword lib (models.Password u) password
          with None => true | Some _ => false end, None), w').
Proof.
  intros H. eexists. apply CheckLoginCredentials_found. exact H.
Qed.

End CreateFacts.

Section MoreGuards.

Context {S R : Type}.
Variable Storage : IStorage S.
Variable lib : Imports R.

Local Abbreviation W := (world S R).

(** [CreateByUser] and [ListByUser] have no self-service: every requester
    is looked up. For an admin they are [Create] and [List] run after the
    lookup; a requester that is not an admin gets the zero user, or no
    users, with [Forbidden], and nothing but the lookup has happened. *)
Theorem admin_only_operations (w : W) (requesterID name : string)
    (password : bytes) (isAdmin : bool) (limit offset : nat) :
  (admin_status Storage w requesterID = Some true ->
   CreateByUser Storage lib requesterID name password isAdmin w
   = Create Storage lib name password isAdmin
       (logged (CallGetUser requesterID) w)
   /\ ListByUser Storage requesterID limit offset w
      = List Storage limit offset (logged (CallGetUser requesterID) w))
  /\ (admin_status Storage w requesterID = Some false ->
      CreateByUser Storage lib requesterID name password isAdmin w
      = Returned ((models.zero, Some Forbidden),
                  logged (CallGetUser requesterID) w)
      /\ ListByUser Storage requesterID limit offset w
         = Returned (([], Some Forbidden),
                     logged (CallGetUser requesterID) w)).
Proof.
  split; intros Ha; unfold CreateByUser, ListByUser, go_bind.
  - rewrite (check_admin_granted _ _ _ Ha). split; reflexivity.
  - rewrite (check_admin_denied _ _ _ Ha). split; reflexivity.
Qed.

(** [DeleteByUser] lets a requester delete its own account without
    looking the requester up, and lets an admin delete any account: in
    both cases it is [Delete] of the given identifier. *)
Theorem DeleteByUser_allowed (w : W) (requesterID id : string) :
  (requesterID = id ->
   DeleteByUser Storage requesterID id w = Delete Storage id w)
  /\ (requesterID <> id ->
      admin_status Storage w requesterID = Some true ->
      DeleteByUser Storage requesterID id w
      = Delete Storage id (logged (CallGetUser requesterID) w)).
Proof.
  split.
  - intros ->. unfold DeleteByUser. rewrite eqb_same. reflexivity.
  - intros Hne Ha. unfold DeleteByUser, go_bind.
    rewrite (eqb_differs Hne), (check_admin_granted _ _ _ Ha). reflexivity.
Qed.

(** A patch for somebody else's account: from an admin it goes to
    [Update] after the lookup; from a requester that is not an admin it
    is refused with [Forbidden] before any validation, and the storage is
    left alone. *)
Theorem UpdateByUser_other_account (w : W) (requesterID : string)
    (p : user_repository.UpdatePayload) :
  requesterID <> user_repository.ID p ->
  (admin_status Storage w requesterID = Some true ->
   UpdateByUser Storage requesterID p w
   = Update Storage p (logged (CallGetUser requesterID) w))
  /\ (admin_status Storage w requesterID = Some false ->
      UpdateByUser Storage requesterID p w
      = Returned (Some Forbidden, logged (CallGetUser requesterID) w)).
Proof.
  intros Hne. split; intros Ha; unfold UpdateByUser, go_bind;
    rewrite (eqb_differs Hne).
  - rewrite (check_admin_granted _ _ _ Ha). reflexivity.
  - rewrite (check_admin_denied _ _ _ Ha). reflexivity.
Qed.

Lemma Update_frame (p : user_repository.UpdatePayload) (w : W)
    (e : option error) (w' : W) :
  Update Storage p w = Returned (e, w') ->
  (storage w' = storage w
   \/ storage w' = fst (sto_UpdateUser Storage (storage w) p))
  /\ entropy w' = entropy w.
Proof.
  unfold Update, Storage_UpdateUser, go_ret.
  destruct (match user_repository.Name p with
            | Some name => validateName name | None => None end).
  { intros H; injection H as _ <-. auto. }
  destruct (match user_repository.Password p with
            | Some password => validatePassword password | None => None end).
  { intros H; injection H as _ <-. auto. }
  destruct (sto_UpdateUser Storage (storage w) p) as [s' x].
  intros H; injection H as _ <-. simpl. auto.
Qed.

(** What the guarded operations can do to the storage: [GetByUser] and
    [ListByUser] leave it as it was; [UpdateByUser] and [DeleteByUser]
    leave it as it was or as the storage's [UpdateUser] of the given
    patch, respectively [DeleteUser] of the given identifier, made it.
    None of them draws on the entropy. *)
Theorem ByUser_storage_frame (w : W) (requesterID id : string)
    (limit offset : nat) (p : user_repository.UpdatePayload) :
  (forall r w',
      GetByUser Storage requesterID id w = Returned (r, w') ->
      storage w' = storage w /\ entropy w' = entropy w)
  /\ (forall r w',
        ListByUser Storage requesterID limit offset w = Returned (r, w') ->
        storage w' = storage w /\ entropy w' = entropy w)
  /\ (forall e w',
        UpdateByUser Storage requesterID p w = Returned (e, w') ->
        (storage w' = storage w
         \/ storage w' = fst (sto_UpdateUser Storage (storage w) p))
        /\ entropy w' = entropy w)
  /\ (forall e w',
        DeleteByUser Storage requesterID id w = Returned (e, w') ->
        (storage w' = storage w
         \/ storage w' = fst (sto_DeleteUser Storage (storage w) id))
        /\ entropy w' = entropy w).
Proof.
  destruct (check_admin_returns Storage w requesterID) as [err Hc].
  assert (HGet : forall (w0 : W) r (w' : W),
             Get Storage id w0 = Returned (r, w') ->
             storage w' = storage w0 /\ entropy w' = entropy w0).
  { intros w0 r w'. unfold Get, Storage_GetUser.
    destruct (sto_GetUser Storage (storage w0) id).
    intros H; injection H as _ <-. auto. }
  assert (HDel : forall (w0 : W) e (w' : W),
             Delete Storage id w0 = Returned (e, w') ->
             (storage w' = storage w0
              \/ storage w' = fst (sto_DeleteUser Storage (storage w0) id))
             /\ entropy w' = entropy w0).
  { intros w0 e w'. unfold Delete, Storage_DeleteUser.
    destruct (sto_DeleteUser Storage (storage w0) id).
    intros H; injection H as _ <-. simpl. auto. }
  repeat apply conj.
  - intros r w'. unfold GetByUser, go_bind.
    destruct (negb (requesterID =? id)%string); [|apply HGet].
    rewrite Hc. destruct err.
    + intros H; injection H as _ <-. auto.
    + intros H. apply HGet in H. exact H.
  - intros r w'. unfold ListByUser, go_bind. rewrite Hc. destruct err.
    + intros H; injection H as _ <-. auto.
    + unfold List, Storage_ListUsers. simpl.
      destruct (sto_ListUsers Storage (storage w) limit offset).
      intros H; injection H as _ <-. auto.
  - intros e w'. unfold UpdateByUser, go_bind.
    destruct (negb (requesterID =? user_repository.ID p)%string);
      [|apply Update_frame].
    rewrite Hc. destruct err.
    + intros H; injection H as _ <-. auto.
    + intros H. apply Update_frame in H. exact H.
  - intros e w'. unfold DeleteByUser, go_bind.
    destruct (negb (requesterID =? id)%string); [|apply HDel].
    rewrite Hc. destruct err.
    + intros H; injection H as _ <-. auto.
    + intros H. apply HDel in H. exact H.
Qed.

End MoreGuards.

(** * More of the session manager *)

Section Sequences.

Import sessions.

Context {P : Type}.

Lemma run_op_jobs (o : op) (rt : runtime P) :
  goroutines (snd (run_op o rt))
  = goroutines rt ++ map autoGC_job (started_by (o, fst (run_op o rt)))
  /\ provider (manager (snd (run_op o rt))) = provider (manager rt).
Proof.
  destruct o as [x|]; simpl; unfold EnableAutoGC, DisableAutoGC;
    destruct (autoGCShouldBeRunning (manager rt)); simpl;
    rewrite ?app_nil_r; split; reflexivity.
Qed.

Lemma run_op_balance (o : op) (rt : runtime P) :
  (if enabled_ok (o, fst (run_op o rt)) then 1 else 0) + running_now rt
  = (if disabled_ok (o, fst (run_op o rt)) then 1 else 0)
    + running_now (snd (run_op o rt)).
Proof.
  destruct o as [x|]; simpl; unfold EnableAutoGC, DisableAutoGC, running_now;
    destruct (autoGCShouldBeRunning (manager rt)) eqn:E; simpl;
    rewrite ?E; reflexivity.
Qed.

(** Over any sequence of [EnableAutoGC] and [DisableAutoGC] calls the
    manager only ever adds jobs: the jobs started are the old ones
    followed by one [autoGC_job x] for each [EnableAutoGC(x)] that
    returned [nil], in call order. [DisableAutoGC] removes none, and the
    provider is not touched. *)
Theorem run_ops_jobs_started (os : list op) (rt : runtime P) :
  goroutines (snd (run_ops os rt))
  = goroutines rt
    ++ map autoGC_job
         (flat_map started_by (combine os (fst (run_ops os rt))))
  /\ provider (manager (snd (run_ops os rt))) = provider (manager rt).
Proof.
  revert rt. induction os as [|o os IH]; intros rt; simpl.
  - rewrite app_nil_r. split; reflexivity.
  - destruct (run_op_jobs o rt) as [Hj Hp].
    destruct (run_op o rt) as [e rt1]. simpl in Hj, Hp.
    destruct (IH rt1) as [IHj IHp].
    destruct (run_ops os rt1) as [es rt2]. simpl in *.
    rewrite IHj, Hj, map_app, app_assoc, IHp, Hp. split; reflexivity.
Qed.

(** Successful calls alternate: over any sequence, the number of
    [EnableAutoGC] calls that returned [nil], plus one if the flag was set
    before, is the number of [DisableAutoGC] calls that returned [nil],
    plus one if the flag is set after. *)
Theorem run_ops_balance (os : list op) (rt : runtime P) :
  List.length (filter enabled_ok (combine os (fst (run_ops os rt))))
  + running_now rt
  = List.length (filter disabled_ok (combine os (fst (run_ops os rt))))
    + running_now (snd (run_ops os rt)).
Proof.
  revert rt. induction os as [|o os IH]; intros rt; simpl; [reflexivity|].
  pose proof (run_op_balance o rt) as Hb.
  destruct (run_op o rt) as [e rt1]. simpl in Hb.
  specialize (IH rt1).
  destruct (run_ops os rt1) as [es rt2]. simpl in *.
  destruct o as [x|]; destruct e as [err|]; simpl in *; lia.
Qed.

End Sequences.

Section Schedules.

Import sessions.

Context {P : Type}.

(** What a scheduling decision does: nothing when no such caller exists,
    and otherwise one statement of that caller, the others untouched. *)
Lemma step_nth_spec (i : nat) (cs : list (Duration * enable_pc))
    (rt : runtime P) :
  (List.length cs <= i /\ step_nth i cs rt = (cs, rt))
  \/ exists pre x pc post,
      cs = pre ++ (x, pc) :: post
      /\ List.length pre = i
      /\ step_nth i cs rt
         = (pre ++ (x, fst (enable_step x pc rt)) :: post,
            snd (enable_step x pc rt)).
Proof.
  revert i. induction cs as [|[x pc] cs IH]; intros i.
  - left. split; [simpl; lia | destruct i; reflexivity].
  - destruct i as [|i].
    + right. exists [], x, pc, cs. simpl.
      destruct (enable_step x pc rt). auto.
    + destruct (IH i) as [[Hlen Hs]|(pre & y & pc' & post & -> & Hl & Hs)].
      * left. split; [simpl; lia|]. simpl. rewrite Hs. reflexivity.
      * right. exists ((x, pc) :: pre), y, pc', post. simpl.
        rewrite Hs. subst i. auto.
Qed.

Lemma enable_step_accounting (x : Duration) (pc : enable_pc) (rt : runtime P) :
  List.length (goroutines (snd (enable_step x pc rt)))
  + (if returned_nil (x, pc) then 1 else 0)
  = List.length (goroutines rt)
    + (if returned_nil (x, fst (enable_step x pc rt)) then 1 else 0).
Proof.
  destruct pc as [| | |[e|]]; simpl; try lia.
  - destruct (autoGCShouldBeRunning (manager rt)); simpl; lia.
  - rewrite length_app. simpl. lia.
Qed.

Lemma sched_step_accounting (i : nat) (c : config (P := P)) :
  List.length (goroutines (shared (sched_step i c)))
  + List.length (filter returned_nil (callers c))
  = List.length (goroutines (shared c))
    + List.length (filter returned_nil (callers (sched_step i c)))
  /\ List.length (callers (sched_step i c)) = List.length (callers c).
Proof.
  unfold sched_step.
  destruct (step_nth_spec i (callers c) (shared c))
    as [[_ Hs]|(pre & x & pc & post & Hc & _ & Hs)]; rewrite Hs; simpl.
  - split; lia.
  - rewrite Hc, !filter_app, !length_app. simpl.
    pose proof (enable_step_accounting x pc (shared c)) as Ha.
    destruct (returned_nil (x, pc));
      destruct (returned_nil (x, fst (enable_step x pc (shared c))));
      simpl in *; split; lia.
Qed.

Lemma exec_accounting (schedule : list nat) (c : config (P := P)) :
  List.length (goroutines (shared (exec schedule c)))
  + List.length (filter returned_nil (callers c))
  = List.length (goroutines (shared c))
    + List.length (filter returned_nil (callers (exec schedule c)))
  /\ List.length (callers (exec schedule c)) = List.length (callers c).
Proof.
  revert c. induction schedule as [|i sch IH]; intros c; simpl.
  - split; reflexivity.
  - destruct (IH (sched_step i c)) as [IH1 IH2].
    destruct (sched_step_accounting i c) as [H1 H2].
    unfold exec in *. simpl. split; lia.
Qed.

Lemma sched_step_blocked (i : nat) (c : config (P := P)) :
  state_of (shared c) = Running ->
  Forall idle_or_refused (callers c) ->
  shared (sched_step i c) = shared c
  /\ Forall idle_or_refused (callers (sched_step i c)).
Proof.
  intros Hrun Hall. unfold sched_step.
  destruct (step_nth_spec i (callers c) (shared c))
    as [[_ Hs]|(pre & x & pc & post & Hc & _ & Hs)]; rewrite Hs; simpl.
  - auto.
  - rewrite Hc in Hall. apply Forall_app in Hall as [Hpre Hrest].
    inversion Hrest as [|? ? Hpc Hpost]; subst.
    unfold state_of in Hrun.
    destruct (autoGCShouldBeRunning (manager (shared c))) eqn:Hflag;
      [|discriminate].
    destruct Hpc as [Hpc|Hpc]; simpl in Hpc; subst pc; simpl;
      rewrite ?Hflag; simpl; (split; [reflexivity|]);
      apply Forall_app; split; auto; constructor; auto;
      right; reflexivity.
Qed.

(** While the flag is set, callers of [EnableAutoGC] cannot start a job,
    however many they are and however they are scheduled: the manager and
    its jobs stay as they were, and every caller is either still before
    its test or has been refused as already running. *)
Theorem exec_blocked_while_running (schedule : list nat)
    (c : config (P := P)) :
  state_of (shared c) = Running ->
  Forall idle_or_refused (callers c) ->
  shared (exec schedule c) = shared c
  /\ Forall idle_or_refused (callers (exec schedule c)).
Proof.
  revert c. induction schedule as [|i sch IH]; intros c Hrun Hall.
  - split; [reflexivity | exact Hall].
  - destruct (sched_step_blocked i c Hrun Hall) as [Hs Hf].
    destruct (IH (sched_step i c)) as [IH1 IH2];
      [rewrite Hs; exact Hrun | exact Hf |].
    unfold exec in *. simpl. rewrite IH1, Hs. split; [reflexivity|exact IH2].
Qed.

Lemma past_assign_stays (x : Duration) (pc : enable_pc) (rt : runtime P) :
  past_assign (x, pc) = true ->
  past_assign (x, fst (enable_step x pc rt)) = true.
Proof. destruct pc as [| | |[e|]]; simpl; auto; discriminate. Qed.

Lemma flag_stays (x : Duration) (pc : enable_pc) (rt : runtime P) :
  autoGCShouldBeRunning (manager rt) = true ->
  autoGCShouldBeRunning (manager (snd (enable_step x pc rt))) = true.
Proof.
  intros Hf. destruct pc as [| | |e]; simpl; rewrite ?Hf; simpl; auto.
Qed.

Lemma sched_step_handed_over (i : nat) (c : config (P := P)) :
  handed_over c -> handed_over (sched_step i c).
Proof.
  unfold handed_over, sched_step.
  destruct (step_nth_spec i (callers c) (shared c))
    as [[_ Hs]|(pre & x & pc & post & Hc & _ & Hs)]; rewrite Hs; simpl;
    [auto|].
  rewrite Hc, forallb_app, existsb_app, !forallb_app, !existsb_app. simpl.
  intros [[Hflag Hall]|[Hflag Hex]].
  - apply andb_prop in Hall as [Hpre Hrest].
    apply andb_prop in Hrest as [Hpc Hpost].
    destruct pc as [| | |e]; simpl in Hpc; try discriminate; simpl.
    + rewrite Hflag. simpl. left. rewrite Hflag, Hpre, Hpost. auto.
    + right. split; [reflexivity|]. apply orb_true_r.
  - right. split; [apply flag_stays; exact Hflag|].
    apply orb_prop in Hex as [Hpre|Hrest]; [rewrite Hpre; reflexivity|].
    apply orb_prop in Hrest as [Hpc|Hpost].
    + rewrite (past_assign_stays x pc (shared c) Hpc). simpl.
      apply orb_true_r.
    + rewrite Hpost. rewrite !orb_true_r. reflexivity.
Qed.

Lemma exec_handed_over (schedule : list nat) (c : config (P := P)) :
  handed_over c -> handed_over (exec schedule c).
Proof.
  revert c. induction schedule as [|i sch IH]; intros c Hc; [exact Hc|].
  unfold exec in *. simpl. apply IH, sched_step_handed_over, Hc.
Qed.

Lemma all_at_test (cs : list (Duration * enable_pc)) :
  Forall (fun c => snd c = AtTest) cs ->
  forallb before_go cs = true /\ filter returned_nil cs = [].
Proof.
  induction 1 as [|[x pc] cs Hpc _ [IH1 IH2]]; [auto|].
  simpl in Hpc; subst pc. simpl. unfold before_go, returned_nil in *.
  simpl. auto.
Qed.

Lemma returned_not_before_go (cs : list (Duration * enable_pc)) :
  forallb before_go cs = true ->
  forallb has_returned cs = true ->
  cs = [].
Proof.
  destruct cs as [|[x pc] cs]; [reflexivity|]. simpl.
  destruct pc; simpl; discriminate.
Qed.

Lemma returned_past_assign (cs : list (Duration * enable_pc)) :
  existsb past_assign cs = true ->
  forallb has_returned cs = true ->
  1 <= List.length (filter returned_nil cs).
Proof.
  induction cs as [|[x pc] cs IH]; simpl; [discriminate|].
  intros Hex Hall. apply andb_prop in Hall as [Hpc Hrest].
  destruct pc as [| | |[e|]]; simpl in *; try discriminate;
    try (simpl; lia).
  unfold returned_nil at 1. simpl. apply IH; assumption.
Qed.

(** From a stopped manager, callers of [EnableAutoGC] scheduled in any
    way, once all of them have returned: the flag is set, at least one
    caller returned [nil], and the manager has started exactly as many
    jobs as callers returned [nil], at most one per caller. *)
Theorem exec_from_stopped (schedule : list nat) (rt : runtime P)
    (cs : list (Duration * enable_pc)) :
  state_of rt = Stopped ->
  cs <> [] ->
  Forall (fun c => snd c = AtTest) cs ->
  forallb has_returned (callers (exec schedule (mkConfig rt cs))) = true ->
  state_of (shared (exec schedule (mkConfig rt cs))) = Running
  /\ 1 <= List.length
            (filter returned_nil (callers (exec schedule (mkConfig rt cs))))
  /\ List.length (goroutines (shared (exec schedule (mkConfig rt cs))))
     = List.length (goroutines rt)
       + List.length
           (filter returned_nil (callers (exec schedule (mkConfig rt cs))))
  /\ List.length
       (filter returned_nil (callers (exec schedule (mkConfig rt cs))))
     <= List.length cs.
Proof.
  intros Hstop Hne Htest Hdone.
  destruct (all_at_test Htest) as [Hbefore Hnone].
  destruct (exec_accounting schedule (mkConfig rt cs)) as [Hacc Hlen].
  simpl in Hacc, Hlen. rewrite Hnone in Hacc. simpl in Hacc.
  assert (Hin : handed_over (mkConfig rt cs)).
  { left. simpl. split; [|exact Hbefore]. unfold state_of in Hstop.
    destruct (autoGCShouldBeRunning (manager rt)); [discriminate|reflexivity]. }
  apply (exec_handed_over schedule) in Hin.
  destruct Hin as [[_ Hall]|[Hflag Hex]].
  - apply returned_not_before_go in Hall; [|exact Hdone].
    rewrite Hall in Hlen. destruct cs; [contradiction | discriminate].
  - repeat split.
    + unfold state_of. rewrite Hflag. reflexivity.
    + apply returned_past_assign; assumption.
    + lia.
    + rewrite <- Hlen. apply filter_length_le.
Qed.

End Schedules.

(** ** Creating an account, then logging in *)

Section RoundTrip.

Context {S R : Type}.
Variable Storage : IStorage S.
Variable lib : Imports R.

Local Abbreviation W := (world S R).

(** A [Create] that returned no error saved the user it returns, and that
    user carries the name given and the hash bcrypt made of the secret. *)
Lemma Create_succeeded (name : string) (password : bytes) (isAdmin : bool)
    (w : W) (u : models.User) (w1 : W) :
  Create Storage lib name password isAdmin w = Returned ((u, None), w1) ->
  models.Name u = name
  /\ sto_SaveUser Storage (storage w) u = (storage w1, None)
  /\ exists r1,
      bcrypt_GenerateFromPassword lib (entropy w) password
      = ((models.Password u, None), r1).
Proof.
  unfold Create.
  destruct (validateName name); [discriminate|].
  destruct (validatePassword password); [discriminate|].
  unfold go_bind, bcrypt_Generate, generateUserID, Storage_SaveUser, go_ret.
  destruct (bcrypt_GenerateFromPassword lib (entropy w) password)
    as [[h [t|]] r1]; simpl; [discriminate|].
  destruct (gonanoid_Nanoid lib r1) as [[id [t|]] r2]; simpl; [discriminate|].
  destruct (sto_SaveUser Storage (storage w) (models.mkUser id name h isAdmin))
    as [s' [x|]] eqn:Hs; simpl; [discriminate|].
  intros H. injection H as <- <-. simpl.
  split; [reflexivity|]. split; [exact Hs|]. exists r1. reflexivity.
Qed.

(** Provided bcrypt accepts a secret against the hash it made of it, and
    the storage finds by name a user it has just saved, an account that
    [Create] made logs in: [CheckLoginCredentials] with the same name and
    secret answers [true] and no error. *)
Theorem Create_then_login (name : string) (password : bytes) (isAdmin : bool)
    (w : W) (u : models.User) (w1 : W) :
  (forall r h r',
      bcrypt_GenerateFromPassword lib r password = ((h, None), r') ->
      bcrypt_CompareHashAndPassword lib h password = None) ->
  (forall s v s',
      sto_SaveUser Storage s v = (s', None) ->
      sto_GetUserByName Storage s' (models.Name v) = (v, None)) ->
  Create Storage lib name password isAdmin w = Returned ((u, None), w1) ->
  CheckLoginCredentials Storage lib name password w1
  = Returned ((true, None), logged (CallGetUserByName name) w1).
Proof.
  intros Hbcrypt Hsto Hcreate.
  destruct (Create_succeeded _ _ _ _ Hcreate) as (Hname & Hsave & r1 & Hgen).
  apply Hsto in Hsave. rewrite Hname in Hsave.
  rewrite (CheckLoginCredentials_found Storage lib name password w1 Hsave).
  rewrite (Hbcrypt _ _ _ Hgen). reflexivity.
Qed.

End RoundTrip.

(** The in-memory storage finds by name what it has just saved, and the
    reversing digest accepts what it made. *)
Lemma find_appended {A} (f : A -> bool) (l : list A) (a : A) :
  existsb f l = false -> f a = true -> find f (l ++ [a]) = Some a.
Proof.
  induction l as [|b l IH]; simpl; intros Hl Ha.
  - rewrite Ha. reflexivity.
  - apply orb_false_elim in Hl as [Hb Hl]. rewrite Hb. apply IH; assumption.
Qed.

Lemma memory_finds_saved (s : memory.state) (v : models.User)
    (s' : memory.state) :
  sto_SaveUser memory.Storage s v = (s', None) ->
  sto_GetUserByName memory.Storage s' (models.Name v) = (v, None).
Proof.
  simpl. unfold memory.lookup. destruct (memory.down s); [discriminate|].
  destruct (existsb (memory.has_name (models.Name v)) (memory.users s)) eqn:E;
    [discriminate|].
  intros H. injection H as <-. simpl.
  rewrite (find_appended _ _ v E); [reflexivity|].
  unfold memory.has_name. apply String.eqb_refl.
Qed.

Lemma memory_digest_accepts (password : bytes) (r : list string) (h : bytes)
    (r' : list string) :
  bcrypt_GenerateFromPassword memory.libs r password = ((h, None), r') ->
  bcrypt_CompareHashAndPassword memory.libs h password = None.
Proof.
  simpl. intros H. injection H as <- _.
  destruct (list_eq_dec Byte.byte_eq_dec (rev password) (rev password));
    [reflexivity | contradiction].
Qed.

(** ** The further statements at work *)

Section MoreInstances.

Import memory scenario.

Lemma Create_rejects_untouched_witness :
  Create Storage libs "" (secret "abc") true w0
  = Returned ((models.zero, Some user_repository.ErrInvalidName), w0)
  /\ Create Storage libs "dave" (secret "abc") true w0
     = Returned ((models.zero, Some user_repository.ErrInvalidPassword), w0).
Proof.
  split.
  - apply (proj1 (Create_rejects_untouched Storage libs "" (secret "abc")
                    true w0)).
    left; reflexivity.
  - apply (proj2 (Create_rejects_untouched Storage libs "dave" (secret "abc")
                    true w0)); simpl; lia.
Defined.

Lemma Create_saves_hashed_user_witness :
  Create Storage libs "dave" (secret "sixchr") false w0
  = Returned
      ((models.mkUser "n1" "dave" (rev (secret "sixchr")) false, None),
       mkWorld
         (mkState
            [u1; u2; root;
             models.mkUser "n1" "dave" (rev (secret "sixchr")) false]
            false)
         []
         [CallSaveUser
            (models.mkUser "n1" "dave" (rev (secret "sixchr")) false)]).
Proof.
  apply (Create_saves_hashed_user Storage libs "dave" (secret "sixchr")
           false w0 (hash := rev (secret "sixchr")) (id := "n1")
           (r1 := ["n1"]) (r2 := [])).
  - simpl; lia.
  - simpl; lia.
  - reflexivity.
  - reflexivity.
Defined.

Lemma Create_generator_failure_witness :
  Create Storage broken_bcrypt_libs "dave" (secret "sixchr") false w0
  = Returned ((models.zero, Some (FromBcrypt "crypto/rand: unavailable")), w0)
  /\ Create Storage libs "dave" (secret "sixchr") false w1
     = Returned ((models.zero, Some (FromNanoid "no entropy")), w1).
Proof.
  split.
  - apply (proj1 (Create_generator_failure Storage broken_bcrypt_libs "dave"
                    (secret "sixchr") false w0 [] "" "crypto/rand: unavailable"
                    ["n1"] []
                    ltac:(simpl; lia) ltac:(simpl; lia))).
    reflexivity.
  - apply (proj2 (Create_generator_failure Storage libs "dave"
                    (secret "sixchr") false w1 (rev (secret "sixchr")) ""
                    "no entropy" [] []
                    ltac:(simpl; lia) ltac:(simpl; lia))).
    + reflexivity.
    + reflexivity.
Defined.

Lemma CheckLoginCredentials_reads_only_witness :
  CheckLoginCredentials Storage libs "alice" (secret "wrong1") w1
  = Returned ((false, None), logged (CallGetUserByName "alice") w1)
  /\ storage (logged (CallGetUserByName "alice") w1) = storage w1
  /\ entropy (logged (CallGetUserByName "alice") w1) = entropy w1
  /\ calls (logged (CallGetUserByName "alice") w1)
     = CallGetUserByName "alice" :: calls w1.
Proof.
  split; [reflexivity|].
  apply (CheckLoginCredentials_reads_only Storage libs "alice"
           (secret "wrong1") w1 (r := (false, None))).
  reflexivity.
Defined.

Lemma CheckLoginCredentials_verdict_witness :
  exists w',
    CheckLoginCredentials Storage libs "alice" (secret "sixchr") w1
    = Returned
        ((match bcrypt_CompareHashAndPassword libs (models.Password u1)
                  (secret "sixchr")
          with None => true | Some _ => false end, None), w').
Proof.
  apply (CheckLoginCredentials_verdict Storage libs "alice" (secret "sixchr")
           w1 (u := u1)).
  reflexivity.
Defined.

Lemma admin_only_operations_witness :
  CreateByUser Storage libs "r0" "dave" (secret "sixchr") false w0
  = Create Storage libs "dave" (secret "sixchr") false
      (logged (CallGetUser "r0") w0)
  /\ ListByUser Storage "u1" 0 0 w0
     = Returned (([], Some Forbidden), logged (CallGetUser "u1") w0).
Proof.
  split.
  - apply (proj1 (admin_only_operations Storage libs w0 "r0" "dave"
                    (secret "sixchr") false 0 0)).
    reflexivity.
  - apply (proj2 (admin_only_operations Storage libs w0 "u1" "dave"
                    (secret "sixchr") false 0 0)).
    reflexivity.
Defined.

Lemma DeleteByUser_allowed_witness :
  DeleteByUser Storage "u1" "u1" w0 = Delete Storage "u1" w0
  /\ DeleteByUser Storage "r0" "u1" w0
     = Delete Storage "u1" (logged (CallGetUser "r0") w0).
Proof.
  split.
  - apply (proj1 (DeleteByUser_allowed Storage w0 "u1" "u1")). reflexivity.
  - apply (proj2 (DeleteByUser_allowed Storage w0 "r0" "u1")).
    + discriminate.
    + reflexivity.
Defined.

Lemma UpdateByUser_other_account_witness :
  UpdateByUser Storage "r0" promote_u1 w0
  = Update Storage promote_u1 (logged (CallGetUser "r0") w0)
  /\ UpdateByUser Storage "u2" promote_u1 w0
     = Returned (Some Forbidden, logged (CallGetUser "u2") w0).
Proof.
  split.
  - apply (proj1 (@UpdateByUser_other_account _ _ Storage w0 "r0" promote_u1
                    ltac:(discriminate))).
    reflexivity.
  - apply (proj2 (@UpdateByUser_other_account _ _ Storage w0 "u2" promote_u1
                    ltac:(discriminate))).
    reflexivity.
Defined.

Lemma ByUser_storage_frame_witness :
  storage (logged (CallGetUser "u1") w0) = storage w0
  /\ (storage (mkWorld (mkState [u1; root] false) ["n1"]
                 [CallDeleteUser "u2"; CallGetUser "r0"])
      = storage w0
      \/ storage (mkWorld (mkState [u1; root] false) ["n1"]
                    [CallDeleteUser "u2"; CallGetUser "r0"])
         = fst (sto_DeleteUser Storage (storage w0) "u2")).
Proof.
  split.
  - apply (proj1 (ByUser_storage_frame Storage w0 "u1" "u1" 0 0 promote_u1)
             (u1, None) (logged (CallGetUser "u1") w0)).
    reflexivity.
  - apply (proj2 (proj2 (proj2
             (ByUser_storage_frame Storage w0 "r0" "u2" 0 0 promote_u1)))
             None
             (mkWorld (mkState [u1; root] false) ["n1"]
                [CallDeleteUser "u2"; CallGetUser "r0"])).
    reflexivity.
Defined.

Import sessions.

Lemma exec_blocked_while_running_witness :
  shared (exec [0; 1; 1; 0]
            (mkConfig (snd (EnableAutoGC 5%Z (boot tt)))
               [(7%Z, AtTest); (9%Z, AtTest)]))
  = snd (EnableAutoGC 5%Z (boot tt))
  /\ Forall idle_or_refused
       (callers (exec [0; 1; 1; 0]
                   (mkConfig (snd (EnableAutoGC 5%Z (boot tt)))
                      [(7%Z, AtTest); (9%Z, AtTest)]))).
Proof.
  apply (exec_blocked_while_running [0; 1; 1; 0]
           (mkConfig (snd (EnableAutoGC 5%Z (boot tt)))
              [(7%Z, AtTest); (9%Z, AtTest)])).
  - reflexivity.
  - repeat constructor.
Defined.

Lemma exec_from_stopped_witness :
  state_of (shared (exec [0; 1; 0; 1; 0; 1]
                      (mkConfig (boot tt) [(5%Z, AtTest); (7%Z, AtTest)])))
  = Running
  /\ 1 <= 2
  /\ List.length
       (goroutines
          (shared (exec [0; 1; 0; 1; 0; 1]
                     (mkConfig (boot tt) [(5%Z, AtTest); (7%Z, AtTest)]))))
     = 0 + 2
  /\ 2 <= 2.
Proof.
  apply (exec_from_stopped [0; 1; 0; 1; 0; 1] (boot tt)
           (cs := [(5%Z, AtTest); (7%Z, AtTest)])).
  - reflexivity.
  - discriminate.
  - repeat constructor.
  - reflexivity.
Defined.

Lemma Create_then_login_witness :
  CheckLoginCredentials Storage libs "dave" (secret "sixchr")
    (mkWorld
       (mkState
          [u1; u2; root;
           models.mkUser "n1" "dave" (rev (secret "sixchr")) false]
          false)
       []
       [CallSaveUser
          (models.mkUser "n1" "dave" (rev (secret "sixchr")) false)])
  = Returned
      ((true, None),
       logged (CallGetUserByName "dave")
         (mkWorld
            (mkState
               [u1; u2; root;
                models.mkUser "n1" "dave" (rev (secret "sixchr")) false]
               false)
            []
            [CallSaveUser
               (models.mkUser "n1" "dave" (rev (secret "sixchr")) false)])).
Proof.
  apply (@Create_then_login _ _ Storage libs "dave" (secret "sixchr") false w0
           (models.mkUser "n1" "dave" (rev (secret "sixchr")) false)).
  - intros r h r'. apply memory_digest_accepts.
  - apply memory_finds_saved.
  - reflexivity.
Defined.

End MoreInstances.
